(** * Row-level data permission and menu authorization engine

    A shallow embedding of
      - [backend/common/security/rbac.py]        ([rbac_verify]),
      - [backend/common/security/permission.py]  ([filter_data_permission]),
      - [backend/app/admin/service/data_rule_service.py] and
        [backend/app/admin/service/data_scope_service.py]
        (the mutations of rules and of a scope's rule set),
    together with the records, enumerations and settings they read. *)

From Stdlib Require Import ZArith List String Ascii Bool Lia Permutation.
From Stdlib Require Import DecimalString.
From Stdlib Require DecimalPos DecimalZ.
Import ListNotations.

Local Open Scope string_scope.
Local Open Scope Z_scope.

(* ================================================================== *)
(** ** Exceptions ([backend/common/exception/errors.py]) *)

Module Errors.

(** The exception classes the engine raises, each with the message it
    carries.  [AttributeError] and [ValueError] are Python's own:
    attribute access on [None] or on an unauthenticated user, and a
    failed unpacking. *)
Inductive Error : Type :=
| TokenError (msg : string)
| AuthorizationError (msg : string)
| NotFoundError (msg : string)
| ServerError (msg : string)
| AttributeError
| ValueError.

(** Default messages of the constructors' [msg] keyword. *)
Definition TokenError_default : Error := TokenError "Not Authenticated".
Definition AuthorizationError_default : Error := AuthorizationError "Permission Denied".

(** A computation either raises or returns. *)
Inductive Result (A : Type) : Type :=
| Raise (e : Error)
| Return (a : A).
Arguments Raise {A} e.
Arguments Return {A} a.

Definition bind {A B : Type} (m : Result A) (k : A -> Result B) : Result B :=
  match m with
  | Raise e => Raise e
  | Return a => k a
  end.

Definition is_NotFound {A : Type} (r : Result A) : bool :=
  match r with
  | Raise (NotFoundError _) => true
  | _ => false
  end.

End Errors.
Export Errors.

Declare Scope result_scope.
Notation "x <- m ;; k" := (bind m (fun x => k))
  (at level 61, m at next level, right associativity) : result_scope.
Local Open Scope result_scope.

(* ================================================================== *)
(** ** Enumerations ([backend/common/enums.py]) *)

Module Enums.

(** [StatusType(IntEnum)] *)
Definition StatusType_disable : Z := 0.
Definition StatusType_enable : Z := 1.

(** [RoleDataRuleOperatorType(IntEnum)] *)
Definition RoleDataRuleOperatorType_AND : Z := 0.
Definition RoleDataRuleOperatorType_OR : Z := 1.

(** [RoleDataRuleExpressionType(IntEnum)] *)
Definition RoleDataRuleExpressionType_eq : Z := 0.
Definition RoleDataRuleExpressionType_ne : Z := 1.
Definition RoleDataRuleExpressionType_gt : Z := 2.
Definition RoleDataRuleExpressionType_ge : Z := 3.
Definition RoleDataRuleExpressionType_lt : Z := 4.
Definition RoleDataRuleExpressionType_le : Z := 5.
Definition RoleDataRuleExpressionType_in_ : Z := 6.
Definition RoleDataRuleExpressionType_not_in : Z := 7.

(** [MethodType(StrEnum)] *)
Definition MethodType_GET : string := "GET".
Definition MethodType_POST : string := "POST".
Definition MethodType_PUT : string := "PUT".
Definition MethodType_DELETE : string := "DELETE".
Definition MethodType_PATCH : string := "PATCH".
Definition MethodType_OPTIONS : string := "OPTIONS".

End Enums.
Export Enums.

(* ================================================================== *)
(** ** Python built-ins used by the engine *)

Module Py.

(** [x in xs] for a list of strings. *)
Definition str_in (x : string) (xs : list string) : bool :=
  existsb (String.eqb x) xs.

(** [x in xs] for a list of integers. *)
Definition int_in (x : Z) (xs : list Z) : bool :=
  existsb (Z.eqb x) xs.

(** Truth value of a [str | None]: [None] and the empty string are false. *)
Definition truthy_str (o : option string) : bool :=
  match o with
  | None => false
  | Some s => negb (String.eqb s "")
  end.

(** Truth value of an integer. *)
Definition truthy_int (n : Z) : bool := negb (n =? 0).

(** [len(xs)] *)
Definition len {A : Type} (xs : list A) : Z := Z.of_nat (List.length xs).

(** [s.split(sep)] for a one-character separator: never an empty list,
    [''.split(',') == ['']]. *)
Fixpoint str_split (sep : ascii) (s : string) : list string :=
  match s with
  | EmptyString => [EmptyString]
  | String c rest =>
      if Ascii.eqb c sep then EmptyString :: str_split sep rest
      else match str_split sep rest with
           | [] => [String c EmptyString]
           | w :: ws => String c w :: ws
           end
  end.

(** A [dict] with integer keys.  Python keeps insertion order: assigning
    to a key that is present replaces the value where the key stands,
    assigning to a new key appends. *)
Definition dict (V : Type) : Type := list (Z * V).

Fixpoint dict_set {V : Type} (d : dict V) (k : Z) (v : V) : dict V :=
  match d with
  | [] => [(k, v)]
  | (k', v') :: d' =>
      if k' =? k then (k', v) :: d' else (k', v') :: dict_set d' k v
  end.

Definition dict_keys {V : Type} (d : dict V) : list Z := map fst d.
Definition dict_values {V : Type} (d : dict V) : list V := map snd d.

Fixpoint dict_get {V : Type} (d : dict V) (k : Z) : option V :=
  match d with
  | [] => None
  | (k', v') :: d' => if k' =? k then Some v' else dict_get d' k
  end.

(** [str(n)] for an integer, as an f-string prints it. *)
Definition str_of_int (n : Z) : string := NilZero.string_of_int (Z.to_int n).

End Py.
Export Py.

(* ================================================================== *)
(** ** The principal ([backend/app/admin/schema/*.py])

    The authenticated user is a [GetUserInfoWithRelationDetail]; only the
    fields the engine reads are kept. *)

(** [GetMenuDetail] *)
Record Menu : Type := mkMenu {
  menu_id : Z;
  menu_perms : option string;      (* perms: str | None *)
  menu_status : Z                  (* status: StatusType *)
}.

(** [GetDataScopeDetail]: the principal's scopes carry no rules. *)
Record DataScope : Type := mkDataScope {
  scope_id : Z;
  scope_status : Z                 (* status: StatusType *)
}.

(** [GetRoleWithRelationDetail] *)
Record Role : Type := mkRole {
  role_id : Z;
  role_status : Z;                 (* status: StatusType *)
  is_filter_scopes : bool;
  menus : list Menu;
  scopes : list DataScope
}.

(** [GetUserInfoWithRelationDetail] *)
Record User : Type := mkUser {
  user_id : Z;
  is_superuser : bool;
  is_staff : bool;
  roles : list Role
}.

(** What [JwtAuthMiddleware.authenticate] leaves on the request: either
    nothing (Starlette then installs empty credentials and an
    [UnauthenticatedUser]), or [AuthCredentials(['authenticated'])] with
    the user. *)
Inductive Auth : Type :=
| Unauthenticated
| Authenticated (user : User).

(** [request.auth.scopes] *)
Definition auth_scopes (a : Auth) : list string :=
  match a with
  | Unauthenticated => []
  | Authenticated _ => ["authenticated"]
  end.

(** The parts of a FastAPI [Request] the engine reads. *)
Record Request : Type := mkRequest {
  url_path : string;                   (* request.url.path *)
  method : string;                     (* request.method *)
  auth : Auth;                         (* request.auth, request.user *)
  state_permission : option string     (* getattr(request.state, 'permission', None) *)
}.

(** [request.user.<field>]: an [UnauthenticatedUser] has none of the
    fields of the schema, so reading one raises [AttributeError]. *)
Definition request_user (request : Request) : Result User :=
  match auth request with
  | Unauthenticated => Raise AttributeError
  | Authenticated user => Return user
  end.

(* ================================================================== *)
(** ** Settings ([backend/core/conf.py]) and importable modules *)

Record Settings : Type := mkSettings {
  TOKEN_REQUEST_PATH_EXCLUDE : list string;
  (** compiled regular expressions, each given by its [match] on a path *)
  TOKEN_REQUEST_PATH_EXCLUDE_PATTERN : list (string -> bool);
  JWT_USER_REDIS_PREFIX : string;
  RBAC_ROLE_MENU_MODE : bool;
  RBAC_ROLE_MENU_EXCLUDE : list string;
  DATA_PERMISSION_MODELS : list (string * string);
  DATA_PERMISSION_COLUMN_EXCLUDE : list string
}.

(** What the interpreter can import. *)
Record Modules : Type := mkModules {
  (** [model_ins.__table__.columns.keys()] of the class at a dotted path,
      [None] when the import fails with [ImportError]/[AttributeError] *)
  data_model_columns : string -> option (list string);
  (** [backend.plugin.casbin_rbac.rbac.casbin_verify], when installed *)
  casbin_verify : option (Request -> Result unit)
}.

(** The values of [conf.py]. *)
Definition FASTAPI_API_V1_PATH : string := "/api/v1".

Definition settings : Settings := {|
  TOKEN_REQUEST_PATH_EXCLUDE := [FASTAPI_API_V1_PATH ++ "/auth/login"];
  TOKEN_REQUEST_PATH_EXCLUDE_PATTERN :=
    [fun path =>
       String.eqb path (FASTAPI_API_V1_PATH ++ "/monitors/redis")
       || String.eqb path (FASTAPI_API_V1_PATH ++ "/monitors/server")];
  JWT_USER_REDIS_PREFIX := "fba:user";
  RBAC_ROLE_MENU_MODE := true;
  RBAC_ROLE_MENU_EXCLUDE := ["sys:monitor:redis"; "sys:monitor:server"];
  DATA_PERMISSION_MODELS := [("department", "backend.app.admin.model.Dept")];
  DATA_PERMISSION_COLUMN_EXCLUDE :=
    ["id"; "sort"; "del_flag"; "created_time"; "updated_time"]
|}.

(** The columns of [Dept] ([backend/app/admin/model/dept.py] over
    [Base]), and no casbin plugin. *)
Definition Dept_columns : list string :=
  ["id"; "name"; "sort"; "leader"; "phone"; "email"; "status"; "del_flag";
   "parent_id"; "created_time"; "updated_time"].

Definition modules : Modules := {|
  data_model_columns := fun path =>
    if String.eqb path "backend.app.admin.model.Dept" then Some Dept_columns else None;
  casbin_verify := None
|}.

(* ================================================================== *)
(** ** Menu authorization ([backend/common/security/rbac.py]) *)

Module Rbac.

Definition msg_no_role : string :=
  "User has not assigned a role, please contact the system administrator".
Definition msg_no_menu : string :=
  "User has not assigned a menu, please contact the system administrator".
Definition msg_no_staff : string :=
  "The user has been banned from background management operations, please contact the system administrator".
Definition msg_casbin : string :=
  "Permission verification failed, please contact the system administrator".

(** [status == 0] in [all(status == 0 for status in user_roles)]: the
    generator's variable ranges over the role objects themselves, and a
    schema object never equals an integer. *)
Definition role_object_eq_int (status : Role) (n : Z) : bool := false.

(** The "Menu re-removal" loop: menus of every role, keyed by id. *)
Definition unique_menus (user_roles : list Role) : dict Menu :=
  fold_left
    (fun d role => fold_left (fun d' menu => dict_set d' (menu_id menu) menu) (menus role) d)
    user_roles [].

(** The "Assigned menu permission verification" loop. *)
Definition allow_perms (user_roles : list Role) : list string :=
  flat_map
    (fun menu =>
       if truthy_str (menu_perms menu) && (menu_status menu =? StatusType_enable)
       then match menu_perms menu with
            | Some perms => str_split "," perms
            | None => []
            end
       else [])
    (dict_values (unique_menus user_roles)).

(** The staff test, as written: [method != GET or method != OPTIONS]. *)
Definition is_management_method (m : string) : bool :=
  negb (String.eqb m MethodType_GET) || negb (String.eqb m MethodType_OPTIONS).

Definition rbac_verify (st : Settings) (md : Modules) (request : Request) : Result unit :=
  let path := url_path request in
  (* API authentication whitelist *)
  if str_in path (TOKEN_REQUEST_PATH_EXCLUDE st) then Return tt
  else if existsb (fun pattern => pattern path) (TOKEN_REQUEST_PATH_EXCLUDE_PATTERN st)
  then Return tt
  (* JWT authorization status forced verification *)
  else match auth_scopes (auth request) with
  | [] => Raise TokenError_default
  | _ :: _ =>
    user <- request_user request ;;
    (* super administrator without verification *)
    if is_superuser user then Return tt
    else
      (* detect user roles *)
      let user_roles := roles user in
      if match user_roles with [] => true | _ => false end
         || forallb (fun status => role_object_eq_int status 0) user_roles
      then Raise (AuthorizationError msg_no_role)
      (* detect the roles' menus *)
      else if negb (existsb (fun role => len (menus role) >? 0) user_roles)
      then Raise (AuthorizationError msg_no_menu)
      (* detect background management operation permissions *)
      else if is_management_method (method request) && negb (is_staff user)
      then Raise (AuthorizationError msg_no_staff)
      (* RBAC authentication *)
      else if RBAC_ROLE_MENU_MODE st then
        let path_auth_perm := state_permission request in
        match path_auth_perm with
        | None => Return tt
        | Some perm =>
          if String.eqb perm "" then Return tt
          else if str_in perm (RBAC_ROLE_MENU_EXCLUDE st) then Return tt
          else if negb (str_in perm (allow_perms user_roles))
          then Raise AuthorizationError_default
          else Return tt
        end
      else
        match casbin_verify md with
        | None => Raise (ServerError msg_casbin)
        | Some verify => verify request
        end
  end.

End Rbac.

(* ================================================================== *)
(** ** The relational store

    The tables the engine and the two services touch
    ([backend/app/admin/model/data_rule.py], [.../m2m.py]). *)

(** A row of [sys_data_rule] ([DataRule]).  [value] is a [String(255)]
    column, so [isinstance(data_rule.value, str)] always holds. *)
Record DataRule : Type := mkDataRule {
  rule_id : Z;
  rule_model : string;
  rule_column : string;
  rule_operator : Z;       (* 0: and, 1: or *)
  rule_expression : Z;     (* 0: ==, 1: !=, 2: >, 3: >=, 4: <, 5: <=, 6: in, 7: not_in *)
  rule_value : string
}.

Record Database : Type := mkDatabase {
  sys_data_rule : list DataRule;
  sys_data_scope : list DataScope;
  sys_data_scope_rule : list (Z * Z);    (* data_scope_id, data_rule_id *)
  sys_role_data_scope : list (Z * Z);    (* role_id, data_scope_id *)
  sys_user_role : list (Z * Z)           (* user_id, role_id *)
}.

Module Crud.

(** [select_model(db, pk)] on [sys_data_rule] and [sys_data_scope]. *)
Definition select_data_rule (db : Database) (pk : Z) : option DataRule :=
  find (fun r => rule_id r =? pk) (sys_data_rule db).

Definition select_data_scope (db : Database) (pk : Z) : option DataScope :=
  find (fun s => scope_id s =? pk) (sys_data_scope db).

(** The [rules] relationship of a scope, loaded through
    [sys_data_scope_rule] in the order of its rows. *)
Definition scope_rules (db : Database) (pk : Z) : list DataRule :=
  flat_map
    (fun link =>
       if fst link =? pk
       then match select_data_rule db (snd link) with
            | Some r => [r]
            | None => []
            end
       else [])
    (sys_data_scope_rule db).

(** [CRUDDataScope.get_with_relation]: the scope with its rules, or
    [None]. *)
Definition get_with_relation (db : Database) (pk : Z) : option (DataScope * list DataRule) :=
  match select_data_scope db pk with
  | None => None
  | Some s => Some (s, scope_rules db pk)
  end.

(** [CRUDDataRule.delete]: [DELETE ... WHERE id IN pks]; the foreign
    key of [sys_data_scope_rule] is [ON DELETE CASCADE].  Returns the
    row count. *)
Definition data_rule_delete (db : Database) (pks : list Z) : Z * Database :=
  let deleted := filter (fun r => int_in (rule_id r) pks) (sys_data_rule db) in
  (len deleted,
   {| sys_data_rule := filter (fun r => negb (int_in (rule_id r) pks)) (sys_data_rule db);
      sys_data_scope := sys_data_scope db;
      sys_data_scope_rule :=
        filter (fun link => negb (int_in (snd link) pks)) (sys_data_scope_rule db);
      sys_role_data_scope := sys_role_data_scope db;
      sys_user_role := sys_user_role db |}).

(** [CRUDDataScope.update_rules]: the scope's [rules] collection is
    replaced by the rules whose id is listed; assigning to the
    attribute of a missing scope ([None]) raises. *)
Definition update_rules (db : Database) (pk : Z) (rule_ids : list Z) : Result (Z * Database) :=
  match get_with_relation db pk with
  | None => Raise AttributeError
  | Some _ =>
      let rules := filter (fun r => int_in (rule_id r) rule_ids) (sys_data_rule db) in
      Return
        (len rules,
         {| sys_data_rule := sys_data_rule db;
            sys_data_scope := sys_data_scope db;
            sys_data_scope_rule :=
              filter (fun link => negb (fst link =? pk)) (sys_data_scope_rule db)
              ++ map (fun r => (pk, rule_id r)) rules;
            sys_role_data_scope := sys_role_data_scope db;
            sys_user_role := sys_user_role db |})
  end.

End Crud.

(* ================================================================== *)
(** ** Predicate compiler ([backend/common/security/permission.py]) *)

Module Permission.

(** SQLAlchemy column expressions, as far as the compiler builds them. *)
Inductive Operator : Type :=
| op_eq | op_ne | op_gt | op_ge | op_lt | op_le | op_in | op_not_in.

Inductive Operand : Type :=
| Scalar (value : string)
| Values (values : list string).

Inductive BoolOp : Type := AND_ | OR_.

#[warnings="-register-all"] Inductive ColumnElement : Type :=
| True_                                          (* the Python value [1 == 1] *)
| BinaryExpression (model column : string) (op : Operator) (right : Operand)
| BooleanClauseList (operator : BoolOp) (clauses : list ColumnElement).

Definition and_ (clauses : list ColumnElement) : ColumnElement :=
  BooleanClauseList AND_ clauses.
Definition or_ (clauses : list ColumnElement) : ColumnElement :=
  BooleanClauseList OR_ clauses.

(** [or_(1 == 1)], the filter that keeps every row. *)
Definition or_true : ColumnElement := or_ [True_].

(** Truth of a compiled filter on one row, given the truth of each
    single-column comparison on that row. *)
Section Eval.
Variable holds : string -> string -> Operator -> Operand -> bool.

Fixpoint eval (p : ColumnElement) : bool :=
  match p with
  | True_ => true
  | BinaryExpression m c op r => holds m c op r
  | BooleanClauseList AND_ cs => forallb eval cs
  | BooleanClauseList OR_ cs => existsb eval cs
  end.
End Eval.

Definition msg_model : string := "Data rule model does not exist".
Definition msg_column : string := "Data rule model column does not exist".
Definition msg_import : string :=
  "Dynamic analysis of data model column failed, please contact the system super administrator".

(** An imported model class: where it lives and its table's column keys. *)
Record ModelClass : Type := mkModelClass {
  model_path : string;
  table_columns : list string
}.

Fixpoint has_dot (s : string) : bool :=
  match s with
  | EmptyString => false
  | String c rest => Ascii.eqb c "." || has_dot rest
  end.

(** [dict] lookup in [settings.DATA_PERMISSION_MODELS]. *)
Fixpoint models_get (d : list (string * string)) (k : string) : option string :=
  match d with
  | [] => None
  | (k', v) :: d' => if String.eqb k' k then Some v else models_get d' k
  end.

(** [backend/utils/import_parse.py]: unpacking [rsplit('.', 1)] of a
    path without a dot is a [ValueError], which the [except] clause
    does not catch; a failed import becomes a [ServerError]. *)
Definition dynamic_import_data_model (md : Modules) (module_path : string) : Result ModelClass :=
  if negb (has_dot module_path) then Raise ValueError
  else match data_model_columns md module_path with
       | None => Raise (ServerError msg_import)
       | Some cols => Return {| model_path := module_path; table_columns := cols |}
       end.

(** The [match rule_expression] statement: [None] when no case matches. *)
Definition expression_condition (model_ins : ModelClass) (column : string)
    (rule_expression : Z) (value : string) : option ColumnElement :=
  let cmp op := Some (BinaryExpression (model_path model_ins) column op (Scalar value)) in
  let lst op := Some (BinaryExpression (model_path model_ins) column op (Values (str_split "," value))) in
  if rule_expression =? RoleDataRuleExpressionType_eq then cmp op_eq
  else if rule_expression =? RoleDataRuleExpressionType_ne then cmp op_ne
  else if rule_expression =? RoleDataRuleExpressionType_gt then cmp op_gt
  else if rule_expression =? RoleDataRuleExpressionType_ge then cmp op_ge
  else if rule_expression =? RoleDataRuleExpressionType_lt then cmp op_lt
  else if rule_expression =? RoleDataRuleExpressionType_le then cmp op_le
  else if rule_expression =? RoleDataRuleExpressionType_in_ then lst op_in
  else if rule_expression =? RoleDataRuleExpressionType_not_in then lst op_not_in
  else None.

(** The sequence of [data_scope_ids.add] calls. *)
Definition data_scope_adds (user : User) : list Z :=
  flat_map
    (fun role =>
       flat_map
         (fun scope => if truthy_int (scope_status scope) then [scope_id scope] else [])
         (scopes role))
    (roles user).

(** Combining all conditions. *)
Definition combine (where_and_list where_or_list : list ColumnElement) : ColumnElement :=
  let where_list :=
    ((match where_and_list with [] => [] | _ :: _ => [and_ where_and_list] end)
     ++ (match where_or_list with [] => [] | _ :: _ => [or_ where_or_list] end))%list in
  match where_list with
  | [] => or_true
  | _ :: _ => or_ where_list
  end.

Section Compiler.

(** [list(s)] for the [set] built by a sequence of [add] calls:
    Python fixes no order. *)
Variable set_list : list Z -> list Z.
Variable st : Settings.
Variable md : Modules.

(** The "Get data range rules" loop. *)
Fixpoint load_rules (db : Database) (ids : list Z) (unique_data_rules : dict DataRule)
    : Result (dict DataRule) :=
  match ids with
  | [] => Return unique_data_rules
  | data_scope_id :: ids' =>
      match Crud.get_with_relation db data_scope_id with
      | None => Raise AttributeError
      | Some (_, rules) =>
          load_rules db ids'
            (fold_left (fun d rule => dict_set d (rule_id rule) rule) rules unique_data_rules)
      end
  end.

(** One turn of the rule loop up to [condition]: verify the model,
    verify the column, create the filter condition. *)
Definition rule_condition (data_rule : DataRule) : Result (option ColumnElement) :=
  let rule_model := rule_model data_rule in
  match models_get (DATA_PERMISSION_MODELS st) rule_model with
  | None => Raise (NotFoundError msg_model)
  | Some path =>
      model_ins <- dynamic_import_data_model md path ;;
      let model_columns :=
        filter (fun key => negb (str_in key (DATA_PERMISSION_COLUMN_EXCLUDE st)))
               (table_columns model_ins) in
      let column := rule_column data_rule in
      if negb (str_in column model_columns) then Raise (NotFoundError msg_column)
      else Return (expression_condition model_ins column
                     (rule_expression data_rule) (rule_value data_rule))
  end.

(** The rule loop with its two accumulators. *)
Fixpoint build_where (data_rule_list : list DataRule)
    (where_and_list where_or_list : list ColumnElement)
    : Result (list ColumnElement * list ColumnElement) :=
  match data_rule_list with
  | [] => Return (where_and_list, where_or_list)
  | data_rule :: rest =>
      condition <- rule_condition data_rule ;;
      match condition with
      | None => build_where rest where_and_list where_or_list
      | Some c =>
          if rule_operator data_rule =? RoleDataRuleOperatorType_AND
          then build_where rest (where_and_list ++ [c]) where_or_list
          else if rule_operator data_rule =? RoleDataRuleOperatorType_OR
          then build_where rest where_and_list (where_or_list ++ [c])
          else build_where rest where_and_list where_or_list
      end
  end.

Definition filter_data_permission (db : Database) (request : Request) : Result ColumnElement :=
  user <- request_user request ;;
  (* whether to filter data permissions *)
  if is_superuser user then Return or_true
  else if existsb (fun role => negb (is_filter_scopes role)) (roles user)
  then Return or_true
  else
    (* get data range *)
    let data_scope_ids := set_list (data_scope_adds user) in
    match data_scope_ids with
    | [] => Return or_true
    | _ :: _ =>
        (* get data range rules *)
        unique_data_rules <- load_rules db data_scope_ids [] ;;
        let data_rule_list := dict_values unique_data_rules in
        buckets <- build_where data_rule_list [] [] ;;
        Return (combine (fst buckets) (snd buckets))
    end.

End Compiler.

End Permission.

(* ================================================================== *)
(** ** Rule and scope mutations
       ([backend/app/admin/service/data_rule_service.py],
        [backend/app/admin/service/data_scope_service.py]) *)

Module Service.

(** The redis store: key to cached value. *)
Definition Cache : Type := list (string * string).

Record World : Type := mkWorld {
  db : Database;
  redis : Cache
}.

(** [f'{settings.JWT_USER_REDIS_PREFIX}:{user.id}'] *)
Definition user_cache_key (st : Settings) (uid : Z) : string :=
  JWT_USER_REDIS_PREFIX st ++ ":" ++ str_of_int uid.

Fixpoint cache_get (c : Cache) (key : string) : option string :=
  match c with
  | [] => None
  | (k, v) :: c' => if String.eqb k key then Some v else cache_get c' key
  end.

(** [DataRuleService.delete]: one transaction around
    [data_rule_dao.delete]. *)
Definition data_rule_service_delete (pks : list Z) (w : World) : Result Z * World :=
  let (count, db') := Crud.data_rule_delete (db w) pks in
  (Return count, {| db := db'; redis := redis w |}).

(** [DataScopeService.update_data_scope_rule]: one transaction around
    [data_scope_dao.update_rules]; an exception rolls it back. *)
Definition update_data_scope_rule (pk : Z) (rule_ids : list Z) (w : World) : Result Z * World :=
  match Crud.update_rules (db w) pk rule_ids with
  | Raise e => (Raise e, w)
  | Return (count, db') => (Return count, {| db := db'; redis := redis w |})
  end.

(** The reverse walk of the relationships: rule, scopes that include
    it, roles that include those scopes, users holding those roles. *)
Definition scopes_of_rule (d : Database) (rid : Z) : list Z :=
  map fst (filter (fun link => snd link =? rid) (sys_data_scope_rule d)).

Definition roles_of_scope (d : Database) (sid : Z) : list Z :=
  map fst (filter (fun link => snd link =? sid) (sys_role_data_scope d)).

Definition users_of_role (d : Database) (rid : Z) : list Z :=
  map fst (filter (fun link => snd link =? rid) (sys_user_role d)).

Definition users_of_scope (d : Database) (sid : Z) : list Z :=
  flat_map (users_of_role d) (roles_of_scope d sid).

Definition users_of_rule (d : Database) (rid : Z) : list Z :=
  flat_map (users_of_scope d) (scopes_of_rule d rid).

End Service.

(* ================================================================== *)
(** ** Worked inputs

    Concrete principals, stores and settings used to run the definitions. *)

Module Fixtures.

Import Permission Service.

(** One way a [set] may list itself: by first insertion. *)
Definition insertion_order (adds : list Z) : list Z :=
  rev (nodup Z.eq_dec (rev adds)).

Definition menu_user_add : Menu := mkMenu 1 (Some "sys:user:add,sys:user:edit") StatusType_enable.
Definition menu_dept_del : Menu := mkMenu 2 (Some "sys:dept:del") StatusType_enable.
Definition menu_role_add_off : Menu := mkMenu 3 (Some "sys:role:add") StatusType_disable.

(** A disabled role and an enabled one, each with one menu. *)
Definition role_disabled : Role := mkRole 1 StatusType_disable true [menu_user_add] [].
Definition role_enabled : Role := mkRole 2 StatusType_enable true [menu_dept_del; menu_role_add_off] [].

Definition staff_of (rs : list Role) : User := mkUser 7 false true rs.
Definition visitor_of (rs : list Role) : User := mkUser 8 false false rs.
Definition root_user : User := mkUser 1 true false [].

Definition request_of (m : string) (u : User) (perm : option string) : Request :=
  mkRequest (FASTAPI_API_V1_PATH ++ "/sys/users") m (Authenticated u) perm.

(** An entity with a [dept] and an [owner] column next to the excluded
    ones. *)
Definition ticket_settings : Settings := {|
  TOKEN_REQUEST_PATH_EXCLUDE := TOKEN_REQUEST_PATH_EXCLUDE settings;
  TOKEN_REQUEST_PATH_EXCLUDE_PATTERN := TOKEN_REQUEST_PATH_EXCLUDE_PATTERN settings;
  JWT_USER_REDIS_PREFIX := JWT_USER_REDIS_PREFIX settings;
  RBAC_ROLE_MENU_MODE := RBAC_ROLE_MENU_MODE settings;
  RBAC_ROLE_MENU_EXCLUDE := RBAC_ROLE_MENU_EXCLUDE settings;
  DATA_PERMISSION_MODELS := [("ticket", "backend.app.desk.model.Ticket")];
  DATA_PERMISSION_COLUMN_EXCLUDE := DATA_PERMISSION_COLUMN_EXCLUDE settings
|}.

Definition ticket_modules : Modules := {|
  data_model_columns := fun path =>
    if String.eqb path "backend.app.desk.model.Ticket"
    then Some ["id"; "dept"; "owner"; "status"; "del_flag"; "created_time"; "updated_time"]
    else None;
  casbin_verify := None
|}.

Definition rule_dept : DataRule :=
  mkDataRule 1 "ticket" "dept" RoleDataRuleOperatorType_AND RoleDataRuleExpressionType_eq "5".
Definition rule_owner : DataRule :=
  mkDataRule 2 "ticket" "owner" RoleDataRuleOperatorType_OR RoleDataRuleExpressionType_eq "7".

(** The conditions the two rules compile to. *)
Definition dept_eq_5 : ColumnElement :=
  BinaryExpression "backend.app.desk.model.Ticket" "dept" op_eq (Scalar "5").
Definition owner_eq_7 : ColumnElement :=
  BinaryExpression "backend.app.desk.model.Ticket" "owner" op_eq (Scalar "7").

(** Scope 1 holds the AND-rule, scope 2 holds the OR-rule and the
    AND-rule again; role 1 holds scope 1, role 2 holds scope 2; user 7
    holds both roles, user 9 holds role 3 with no scope. *)
Definition ticket_db : Database := {|
  sys_data_rule := [rule_dept; rule_owner];
  sys_data_scope := [mkDataScope 1 StatusType_enable; mkDataScope 2 StatusType_enable];
  sys_data_scope_rule := [(1, 1); (2, 2); (2, 1)];
  sys_role_data_scope := [(1, 1); (2, 2)];
  sys_user_role := [(7, 1); (7, 2); (9, 3)]
|}.

Definition role_scope_a : Role := mkRole 1 StatusType_enable true [menu_user_add] [mkDataScope 1 StatusType_enable].
Definition role_scope_b : Role := mkRole 2 StatusType_enable true [menu_dept_del] [mkDataScope 2 StatusType_enable].
Definition ticket_user : User := staff_of [role_scope_a; role_scope_b].

(** The department entity of [conf.py], with a rule on a filterable
    column whose expression code is none of the eight, a rule on the
    soft-delete flag, and a rule on an entity that is not listed. *)
Definition rule_expr8 : DataRule :=
  mkDataRule 1 "department" "status" RoleDataRuleOperatorType_AND 8 "1".
Definition rule_del_flag : DataRule :=
  mkDataRule 2 "department" "del_flag" RoleDataRuleOperatorType_AND RoleDataRuleExpressionType_eq "0".
Definition rule_no_model : DataRule :=
  mkDataRule 3 "user" "status" RoleDataRuleOperatorType_AND RoleDataRuleExpressionType_eq "1".

Definition rule_leader : DataRule :=
  mkDataRule 4 "department" "leader" RoleDataRuleOperatorType_AND RoleDataRuleExpressionType_eq "ann".

Definition dept_db (rules : list DataRule) : Database := {|
  sys_data_rule := rules;
  sys_data_scope := [mkDataScope 1 StatusType_enable];
  sys_data_scope_rule := map (fun r => (1, rule_id r)) rules;
  sys_role_data_scope := [(1, 1)];
  sys_user_role := [(7, 1); (9, 3)]
|}.

Definition dept_user : User := staff_of [role_scope_a].

(** A cache holding a snapshot for users 7 and 9. *)
Definition warm_cache : Cache := [("fba:user:7", "{snapshot-7}"); ("fba:user:9", "{snapshot-9}")].

End Fixtures.

(* ================================================================== *)
(** ** Statements of the specification, in its own words *)

Module Spec.

(** The codes of one menu: its code string split on the delimiter, when
    the menu is enabled and has a code. *)
Definition menu_codes (menu : Menu) : list string :=
  if truthy_str (menu_perms menu) && (menu_status menu =? StatusType_enable)
  then match menu_perms menu with
       | Some perms => str_split "," perms
       | None => []
       end
  else [].

(** "The union, across all of the principal's enabled roles, of
    permission codes attached to enabled menus". *)
Definition enabled_role_codes (user_roles : list Role) : list string :=
  flat_map
    (fun role =>
       if role_status role =? StatusType_enable then flat_map menu_codes (menus role) else [])
    user_roles.

(** The same union over every held role, whatever its status. *)
Definition role_codes (user_roles : list Role) : list string :=
  flat_map (fun role => flat_map menu_codes (menus role)) user_roles.

(** Menus that share an id are one menu, as rows of [sys_menu] are. *)
Definition menu_ids_functional (user_roles : list Role) : Prop :=
  forall a b : Menu,
    In a (flat_map menus user_roles) -> In b (flat_map menus user_roles) ->
    menu_id a = menu_id b -> a = b.

(** "Every held role is disabled (status = 0)". *)
Definition every_role_disabled (user_roles : list Role) : bool :=
  forallb (fun role => role_status role =? StatusType_disable) user_roles.

(** "A mutating method (not GET/OPTIONS)". *)
Definition mutating_method (m : string) : bool :=
  negb (String.eqb m MethodType_GET) && negb (String.eqb m MethodType_OPTIONS).

(** "One of the eight known operators". *)
Definition known_expression (e : Z) : bool := (0 <=? e) && (e <=? 7).

(** "OR( AND(and_bucket) if non-empty, OR(or_bucket) if non-empty )",
    the trivially-true predicate when both are empty. *)
Definition or_of_buckets (and_bucket or_bucket : list Permission.ColumnElement)
    : Permission.ColumnElement :=
  match and_bucket, or_bucket with
  | [], [] => Permission.or_true
  | _ :: _, [] => Permission.or_ [Permission.and_ and_bucket]
  | [], _ :: _ => Permission.or_ [Permission.or_ or_bucket]
  | _ :: _, _ :: _ => Permission.or_ [Permission.and_ and_bucket; Permission.or_ or_bucket]
  end.

(** What is fixed about listing a [set]: each member once, nothing else. *)
Definition set_list_ok (set_list : list Z -> list Z) : Prop :=
  forall adds : list Z,
    NoDup (set_list adds) /\ forall x, In x (set_list adds) <-> In x adds.

(** Every class named in the entity allow-list can be imported. *)
Definition models_importable (st : Settings) (md : Modules) : bool :=
  forallb
    (fun entry =>
       Permission.has_dot (snd entry)
       && match data_model_columns md (snd entry) with Some _ => true | None => false end)
    (DATA_PERMISSION_MODELS st).

(** "Target entity name in the fixed entity allow-list, target column
    among the entity's columns minus the fixed exclusion list". *)
Definition rule_resolves (st : Settings) (md : Modules) (r : DataRule) : bool :=
  match Permission.models_get (DATA_PERMISSION_MODELS st) (rule_model r) with
  | None => false
  | Some path =>
      match data_model_columns md path with
      | None => false
      | Some cols =>
          str_in (rule_column r) cols
          && negb (str_in (rule_column r) (DATA_PERMISSION_COLUMN_EXCLUDE st))
      end
  end.

(** The conditions of the rules that join the bucket of one combining
    operator. *)
Definition bucket (st : Settings) (md : Modules) (operator : Z) (rules : list DataRule)
    : list Permission.ColumnElement :=
  flat_map
    (fun r =>
       if rule_operator r =? operator
       then match Permission.rule_condition st md r with
            | Return (Some c) => [c]
            | _ => []
            end
       else [])
    rules.

(** A rule that yields a condition and joins one of the two buckets. *)
Definition rule_partitions (st : Settings) (md : Modules) (r : DataRule) : Prop :=
  (exists c, Permission.rule_condition st md r = Return (Some c))
  /\ (rule_operator r = RoleDataRuleOperatorType_AND
      \/ rule_operator r = RoleDataRuleOperatorType_OR).

(** "Purged": no cached snapshot under the user's key. *)
Definition purged (st : Settings) (c : Service.Cache) (uid : Z) : Prop :=
  Service.cache_get c (Service.user_cache_key st uid) = None.

End Spec.

(* ================================================================== *)
(** ** Route guard ([RequestPermission] in
       [backend/common/security/permission.py], and the dependency list
       of the routes in [backend/app/admin/api/v1/sys/*.py]) *)

Module Guard.

(** What a route hands to [RequestPermission(...)]: the annotation says
    [str], Python does not enforce it. *)
Inductive PyValue : Type :=
| PyStr (s : string)
| PyOther.

(** [RequestPermission.__call__]: under menu mode the value must be a
    string and is attached to [request.state.permission]; otherwise the
    request is left as it is. *)
Definition request_permission (st : Settings) (value : PyValue) (request : Request)
    : Result Request :=
  if RBAC_ROLE_MENU_MODE st then
    match value with
    | PyOther => Raise (ServerError "Internal Server Error")
    | PyStr s =>
        Return {| url_path := url_path request;
                  method := method request;
                  auth := auth request;
                  state_permission := Some s |}
    end
  else Return request.

(** [dependencies=[Depends(RequestPermission(value)), DependsRBAC]]:
    FastAPI runs the two in the order written. *)
Definition route_dependencies (st : Settings) (md : Modules) (value : PyValue)
    (request : Request) : Result unit :=
  request' <- request_permission st value request ;;
  Rbac.rbac_verify st md request'.

End Guard.

(* ================================================================== *)
(** ** Rule and scope administration
       ([backend/app/admin/service/data_rule_service.py],
        [backend/app/admin/service/data_scope_service.py],
        [backend/app/admin/crud/crud_data_scope.py]) *)

Module Admin.

(** Exceptions of the services beyond those of the engine. *)
Inductive Failure : Type :=
| Engine (e : Error)
| ConflictError (msg : string)
| ValidationError.               (* pydantic's, for a field of the wrong type *)

Inductive Outcome (A : Type) : Type :=
| Failed (f : Failure)
| Succeeded (a : A).
Arguments Failed {A} f.
Arguments Succeeded {A} a.

Definition msg_model_missing : string := "The available model of data rules does not exist".
Definition msg_scope_missing : string := "Data range does not exist".
Definition msg_scope_conflict : string := "Data range already exists".

(** *** [DataRuleService] *)


(** [DataRuleService.get_models] *)
Definition get_models (st : Settings) : list string :=
  map fst (DATA_PERMISSION_MODELS st).

(** [GetDataRuleColumnDetail]: both fields are [str]. *)
Record GetDataRuleColumnDetail : Type := mkColumnDetail {
  key : string;
  comment : string
}.

(** The list comprehension of [get_columns] over the columns that are
    not excluded; [comments path key] is the column's [comment], which
    SQLAlchemy leaves [None] when the model gives none. *)
Fixpoint column_details (comments : string -> string -> option string) (path : string)
    (keys : list string) : Outcome (list GetDataRuleColumnDetail) :=
  match keys with
  | [] => Succeeded []
  | k :: keys' =>
      match comments path k with
      | None => Failed ValidationError
      | Some c =>
          match column_details comments path keys' with
          | Failed f => Failed f
          | Succeeded details => Succeeded ({| key := k; comment := c |} :: details)
          end
      end
  end.

(** [DataRuleService.get_columns] *)
Definition get_columns (st : Settings) (md : Modules)
    (comments : string -> string -> option string) (model : string)
    : Outcome (list GetDataRuleColumnDetail) :=
  match Permission.models_get (DATA_PERMISSION_MODELS st) model with
  | None => Failed (Engine (NotFoundError msg_model_missing))
  | Some path =>
      match Permission.dynamic_import_data_model md path with
      | Raise e => Failed (Engine e)
      | Return model_ins =>
          column_details comments (Permission.model_path model_ins)
            (filter (fun k => negb (str_in k (DATA_PERMISSION_COLUMN_EXCLUDE st)))
                    (Permission.table_columns model_ins))
      end
  end.

(** *** [DataScopeService] over rows that carry their name *)

(** A row of [sys_data_scope]. *)
Record DataScopeRow : Type := mkDataScopeRow {
  ds_id : Z;
  ds_name : string;
  ds_status : Z
}.

Record Store : Type := mkStore {
  data_scope_rows : list DataScopeRow;
  data_rule_rows : list DataRule;
  scope_rule_links : list (Z * Z);      (* data_scope_id, data_rule_id *)
  role_scope_links : list (Z * Z);      (* role_id, data_scope_id *)
  user_role_links : list (Z * Z)        (* user_id, role_id *)
}.

(** The same tables as the engine reads them. *)
Definition database_of (s : Store) : Database := {|
  sys_data_rule := data_rule_rows s;
  sys_data_scope := map (fun row => mkDataScope (ds_id row) (ds_status row)) (data_scope_rows s);
  sys_data_scope_rule := scope_rule_links s;
  sys_role_data_scope := role_scope_links s;
  sys_user_role := user_role_links s
|}.

Record Realm : Type := mkRealm {
  store : Store;
  cache : Service.Cache
}.

(** [redis_client.delete(key)] *)
Definition redis_delete (c : Service.Cache) (k : string) : Service.Cache :=
  filter (fun entry => negb (String.eqb (fst entry) k)) c.

(** The loops [for role in ...roles: for user in ...users:
    redis_client.delete(f'{prefix}:{user.id}')] of one scope. *)
Definition purge_scope_users (st : Settings) (s : Store) (scope_pk : Z) (c : Service.Cache)
    : Service.Cache :=
  fold_left
    (fun c' uid => redis_delete c' (Service.user_cache_key st uid))
    (Service.users_of_scope (database_of s) scope_pk)
    c.

(** [CRUDDataScope.get], [get_by_name] *)
Definition scope_get (s : Store) (pk : Z) : option DataScopeRow :=
  find (fun row => ds_id row =? pk) (data_scope_rows s).

Definition scope_get_by_name (s : Store) (name : string) : option DataScopeRow :=
  find (fun row => String.eqb (ds_name row) name) (data_scope_rows s).

(** [CRUDDataScope.update]: [UPDATE ... SET name, status WHERE id = pk],
    returning the row count. *)
Definition scope_update (s : Store) (pk : Z) (name : string) (status : Z) : Z * Store :=
  (len (filter (fun row => ds_id row =? pk) (data_scope_rows s)),
   {| data_scope_rows :=
        map (fun row => if ds_id row =? pk then mkDataScopeRow pk name status else row)
            (data_scope_rows s);
      data_rule_rows := data_rule_rows s;
      scope_rule_links := scope_rule_links s;
      role_scope_links := role_scope_links s;
      user_role_links := user_role_links s |}).

(** [CRUDDataScope.delete]: [DELETE ... WHERE id IN pks]; both link
    tables reference the scope [ON DELETE CASCADE]. *)
Definition scope_delete (s : Store) (pks : list Z) : Z * Store :=
  (len (filter (fun row => int_in (ds_id row) pks) (data_scope_rows s)),
   {| data_scope_rows := filter (fun row => negb (int_in (ds_id row) pks)) (data_scope_rows s);
      data_rule_rows := data_rule_rows s;
      scope_rule_links := filter (fun link => negb (int_in (fst link) pks)) (scope_rule_links s);
      role_scope_links := filter (fun link => negb (int_in (snd link) pks)) (role_scope_links s);
      user_role_links := user_role_links s |}).

(** [DataScopeService.get] *)
Definition data_scope_service_get (s : Store) (pk : Z) : Result DataScopeRow :=
  match scope_get s pk with
  | None => Raise (NotFoundError msg_scope_missing)
  | Some data_scope => Return data_scope
  end.

(** [DataScopeService.get_rules] *)
Definition data_scope_service_get_rules (s : Store) (pk : Z)
    : Result (DataScopeRow * list DataRule) :=
  match scope_get s pk with
  | None => Raise (NotFoundError msg_scope_missing)
  | Some data_scope => Return (data_scope, Crud.scope_rules (database_of s) pk)
  end.

(** [DataScopeService.update]: one transaction; the purge follows the
    update, an exception comes before both. *)
Definition data_scope_service_update (st : Settings) (pk : Z) (name : string) (status : Z)
    (w : Realm) : Outcome Z * Realm :=
  match scope_get (store w) pk with
  | None => (Failed (Engine (NotFoundError msg_scope_missing)), w)
  | Some data_scope =>
      if negb (String.eqb (ds_name data_scope) name)
         && match scope_get_by_name (store w) name with Some _ => true | None => false end
      then (Failed (ConflictError msg_scope_conflict), w)
      else
        let (count, s') := scope_update (store w) pk name status in
        (Succeeded count,
         {| store := s'; cache := purge_scope_users st s' pk (cache w) |})
  end.

(** [DataScopeService.delete]: the rows are deleted first, then each
    [pk] is looked up again and purged for if it is found. *)
Definition data_scope_service_delete (st : Settings) (pks : list Z) (w : Realm)
    : Outcome Z * Realm :=
  let (count, s') := scope_delete (store w) pks in
  (Succeeded count,
   {| store := s';
      cache :=
        fold_left
          (fun c pk =>
             match scope_get s' pk with
             | None => c
             | Some data_rule => purge_scope_users st s' (ds_id data_rule) c
             end)
          pks (cache w) |}).

End Admin.

(** ** Further statements about the engine, in plain terms *)

Module Props.

(** The principal with the disabled scopes taken off every role. *)
Definition without_disabled_scopes (user : User) : User := {|
  user_id := user_id user;
  is_superuser := is_superuser user;
  is_staff := is_staff user;
  roles :=
    map (fun role =>
           {| role_id := role_id role;
              role_status := role_status role;
              is_filter_scopes := is_filter_scopes role;
              menus := menus role;
              scopes := filter (fun scope => truthy_int (scope_status scope)) (scopes role) |})
        (roles user)
|}.

(** The principal with one more role at the end of the list. *)
Definition with_role (user : User) (role : Role) : User := {|
  user_id := user_id user;
  is_superuser := is_superuser user;
  is_staff := is_staff user;
  roles := (roles user ++ [role])%list
|}.

Definition with_user (request : Request) (user : User) : Request := {|
  url_path := url_path request;
  method := method request;
  auth := Authenticated user;
  state_permission := state_permission request
|}.

(** The path is on one of the two white lists. *)
Definition whitelisted (st : Settings) (path : string) : bool :=
  str_in path (TOKEN_REQUEST_PATH_EXCLUDE st)
  || existsb (fun pattern => pattern path) (TOKEN_REQUEST_PATH_EXCLUDE_PATTERN st).

(** The verdict on the required code, the last step under menu mode. *)
Definition code_verdict (st : Settings) (user_roles : list Role) (perm : option string) : Result unit :=
  match perm with
  | None => Return tt
  | Some p =>
      if String.eqb p "" then Return tt
      else if str_in p (RBAC_ROLE_MENU_EXCLUDE st) then Return tt
      else if str_in p (Rbac.allow_perms user_roles) then Return tt
      else Raise AuthorizationError_default
  end.

(** Every entry of a rule dictionary is the stored rule of its key. *)
Definition selected (d0 : Database) (d : dict DataRule) : Prop :=
  forall k v, In (k, v) d -> Crud.select_data_rule d0 k = Some v.

(** Primary keys are distinct. *)
Definition rule_ids_unique (d : Database) : Prop := NoDup (map rule_id (sys_data_rule d)).

End Props.

(** ** Worked inputs for the services *)

Module AdminFixtures.

Import Admin Fixtures.

(** The [comment] of each column of [Dept]. *)
Definition dept_comments (path k : string) : option string :=
  if negb (String.eqb path "backend.app.admin.model.Dept") then None
  else if String.eqb k "id" then Some "Primary key ID"
  else if String.eqb k "name" then Some "Department Name"
  else if String.eqb k "sort" then Some "Sort"
  else if String.eqb k "leader" then Some "Person in charge"
  else if String.eqb k "phone" then Some "Mobile"
  else if String.eqb k "email" then Some "email"
  else if String.eqb k "status" then Some "District status (0 is deactivated 1 is normal)"
  else if String.eqb k "del_flag" then Some "Delete flag (0 delete 1 exists)"
  else if String.eqb k "parent_id" then Some "Parent Department ID"
  else if String.eqb k "created_time" then Some "Create time"
  else if String.eqb k "updated_time" then Some "Update time"
  else None.

(** Two named scopes over the rules and links of [ticket_db]; user 8
    also holds role 2. *)
Definition office_store : Store := {|
  data_scope_rows := [mkDataScopeRow 1 "north" StatusType_enable;
                      mkDataScopeRow 2 "south" StatusType_enable];
  data_rule_rows := [rule_dept; rule_owner];
  scope_rule_links := [(1, 1); (2, 2); (2, 1)];
  role_scope_links := [(1, 1); (2, 2)];
  user_role_links := [(7, 1); (7, 2); (8, 2); (9, 3)]
|}.

Definition office_cache : Service.Cache :=
  [("fba:user:7", "{snapshot-7}"); ("fba:user:8", "{snapshot-8}");
   ("fba:user:9", "{snapshot-9}")].

Definition office : Realm := {| store := office_store; cache := office_cache |}.

End AdminFixtures.

(* ================================================================== *)
(** ** Facts about the Python containers *)

Section DictFacts.

Context {V : Type}.

Lemma dict_set_keys_in (d : dict V) (k : Z) (v : V) (k' : Z) :
  In k' (dict_keys (dict_set d k v)) <-> k' = k \/ In k' (dict_keys d).
Proof.
  unfold dict_keys. induction d as [|[k0 v0] d IH]; simpl.
  - intuition.
  - destruct (Z.eqb_spec k0 k) as [->|Hne]; simpl.
    + intuition.
    + rewrite IH. intuition.
Qed.

Lemma dict_set_keys_nodup (d : dict V) (k : Z) (v : V) :
  NoDup (dict_keys d) -> NoDup (dict_keys (dict_set d k v)).
Proof.
  unfold dict_keys. induction d as [|[k0 v0] d IH]; simpl; intros Hnd.
  - constructor; [intros [] | constructor].
  - inversion Hnd as [|? ? Hnotin Hnd']; subst.
    destruct (Z.eqb_spec k0 k) as [->|Hne]; simpl.
    + constructor; assumption.
    + constructor; [|apply IH; assumption].
      intros Hin. apply (dict_set_keys_in d k v k0) in Hin.
      destruct Hin as [Heq|Hin]; [congruence|contradiction].
Qed.

Lemma dict_set_values_in (d : dict V) (k : Z) (v v' : V) :
  In v' (dict_values (dict_set d k v)) -> v' = v \/ In v' (dict_values d).
Proof.
  unfold dict_values. induction d as [|[k0 v0] d IH]; simpl.
  - intuition.
  - destruct (Z.eqb_spec k0 k) as [->|Hne]; simpl; intuition.
Qed.

Lemma dict_set_value_here (d : dict V) (k : Z) (v : V) :
  In v (dict_values (dict_set d k v)).
Proof.
  unfold dict_values. induction d as [|[k0 v0] d IH]; simpl.
  - now left.
  - destruct (Z.eqb_spec k0 k) as [->|Hne]; simpl; auto.
Qed.

(** An entry survives an assignment when the assignment cannot change it. *)
Lemma dict_set_entry_kept (d : dict V) (k : Z) (v : V) (k' : Z) (v' : V) :
  (k' = k -> v' = v) -> In (k', v') d -> In (k', v') (dict_set d k v).
Proof.
  intros Hsame. induction d as [|[k0 v0] d IH]; simpl; [tauto|].
  intros [Heq|Hin].
  - inversion Heq; subst k0 v0.
    destruct (Z.eqb_spec k' k) as [->|Hne]; simpl.
    + left. now rewrite Hsame.
    + now left.
  - destruct (Z.eqb_spec k0 k) as [->|Hne]; simpl.
    + destruct (Z.eq_dec k' k) as [->|Hne'].
      * left. now rewrite Hsame.
      * now right.
    + right. now apply IH.
Qed.

Lemma dict_set_entry_in (d : dict V) (k : Z) (v : V) (k' : Z) (v' : V) :
  In (k', v') (dict_set d k v) -> (k' = k /\ v' = v) \/ In (k', v') d.
Proof.
  induction d as [|[k0 v0] d IH]; simpl.
  - intros [Heq|[]]. inversion Heq. now left.
  - destruct (Z.eqb_spec k0 k) as [->|Hne]; simpl.
    + intros [Heq|Hin]; [inversion Heq; now left | now right; right].
    + intros [Heq|Hin]; [now right; left|].
      destruct (IH Hin) as [?|?]; [now left | now right; right].
Qed.

End DictFacts.

Lemma str_in_In (x : string) (xs : list string) :
  str_in x xs = true <-> In x xs.
Proof.
  unfold str_in. rewrite existsb_exists. split.
  - intros [y [Hin Heq]]. apply String.eqb_eq in Heq. now subst.
  - intros Hin. exists x. split; [assumption | apply String.eqb_refl].
Qed.

Lemma str_in_false (x : string) (xs : list string) :
  str_in x xs = false <-> ~ In x xs.
Proof.
  rewrite <- str_in_In. destruct (str_in x xs); intuition congruence.
Qed.

Lemma int_in_In (x : Z) (xs : list Z) :
  int_in x xs = true <-> In x xs.
Proof.
  unfold int_in. rewrite existsb_exists. split.
  - intros [y [Hin Heq]]. apply Z.eqb_eq in Heq. now subst.
  - intros Hin. exists x. split; [assumption | apply Z.eqb_refl].
Qed.

(* ================================================================== *)
(** ** Menu authorization: what [rbac_verify] decides *)

Section RbacFacts.

Import Rbac.

Lemma unique_menus_flat (user_roles : list Role) (d : dict Menu) :
  fold_left
    (fun d role => fold_left (fun d' menu => dict_set d' (menu_id menu) menu) (menus role) d)
    user_roles d
  = fold_left (fun d' menu => dict_set d' (menu_id menu) menu) (flat_map menus user_roles) d.
Proof.
  revert d. induction user_roles as [|role rs IH]; intros d; simpl.
  - reflexivity.
  - rewrite fold_left_app. apply IH.
Qed.

Lemma fold_menus_values (ms : list Menu) :
  forall d : dict Menu,
    (forall k v, In (k, v) d -> k = menu_id v) ->
    (forall a b, In a (dict_values d ++ ms) -> In b (dict_values d ++ ms) ->
                 menu_id a = menu_id b -> a = b) ->
    forall m,
      In m (dict_values (fold_left (fun d' menu => dict_set d' (menu_id menu) menu) ms d))
      <-> In m (dict_values d) \/ In m ms.
Proof.
  induction ms as [|x ms IH]; intros d Hkey Hfun m; simpl.
  - tauto.
  - rewrite IH.
    + split.
      * intros [Hin|Hin]; [|tauto].
        apply dict_set_values_in in Hin. destruct Hin as [->|Hin]; tauto.
      * intros [Hin|[->|Hin]]; [| left; apply dict_set_value_here | tauto].
        left. unfold dict_values in Hin. apply in_map_iff in Hin.
        destruct Hin as [[k v] [Hv Hin]]; simpl in Hv; subst v.
        unfold dict_values. apply in_map_iff. exists (k, m). split; [reflexivity|].
        apply dict_set_entry_kept; [|assumption].
        intros Hk. apply Hfun.
        -- apply in_or_app. left. unfold dict_values. apply in_map_iff.
           exists (k, m). now split.
        -- apply in_or_app. right. now left.
        -- rewrite <- Hk. symmetry. now apply Hkey.
    + intros k v Hin. apply dict_set_entry_in in Hin.
      destruct Hin as [[-> ->]|Hin]; [reflexivity | now apply Hkey].
    + assert (Hsub : forall a, In a (dict_values (dict_set d (menu_id x) x) ++ ms) ->
                               In a (dict_values d ++ x :: ms)).
      { intros a Ha. apply in_app_or in Ha. apply in_or_app.
        destruct Ha as [Ha|Ha].
        - apply dict_set_values_in in Ha. destruct Ha as [->|Ha]; [right; now left | now left].
        - right. now right. }
      intros a b Ha Hb. apply Hfun; now apply Hsub.
Qed.

(** With functional menu ids the codes collected through the id-keyed
    dictionary are the codes of the menus of all roles. *)
Lemma allow_perms_role_codes (user_roles : list Role) (code : string) :
  Spec.menu_ids_functional user_roles ->
  In code (allow_perms user_roles) <-> In code (Spec.role_codes user_roles).
Proof.
  intros Hfun. unfold allow_perms, Spec.role_codes, unique_menus.
  rewrite unique_menus_flat.
  change (fun menu : Menu =>
            if truthy_str (menu_perms menu) && (menu_status menu =? StatusType_enable)
            then match menu_perms menu with
                 | Some perms => str_split "," perms
                 | None => []
                 end
            else []) with Spec.menu_codes.
  rewrite !in_flat_map. split.
  - intros [m [Hm Hc]].
    apply fold_menus_values in Hm; simpl; try tauto.
    destruct Hm as [[]|Hm]. apply in_flat_map in Hm. destruct Hm as [role [Hr Hm]].
    exists role. split; [assumption|]. apply in_flat_map. now exists m.
  - intros [role [Hr Hc]]. apply in_flat_map in Hc. destruct Hc as [m [Hm Hc]].
    exists m. split; [|assumption].
    apply fold_menus_values; simpl; try tauto.
    right. apply in_flat_map. now exists role.
Qed.

Lemma is_management_method_true (m : string) : is_management_method m = true.
Proof.
  unfold is_management_method.
  destruct (String.eqb_spec m MethodType_GET) as [->|Hne]; reflexivity.
Qed.

End RbacFacts.

Module RbacClaims.

Import Rbac Fixtures.

(** C2. The staff check of [rbac_verify] is guarded by
    [method != GET or method != OPTIONS], which holds for every method,
    so it does not single out the mutating methods: a GET request by a
    non-staff principal that passes the role and menu checks is denied
    with the management-operations reason, exactly as its POST is. *)
Theorem staff_check_denies_get :
  (forall m : string, is_management_method m = true)
  /\ Spec.mutating_method MethodType_GET = false
  /\ rbac_verify settings modules (request_of MethodType_GET (visitor_of [role_enabled]) None)
     = Raise (AuthorizationError msg_no_staff)
  /\ rbac_verify settings modules (request_of MethodType_POST (visitor_of [role_enabled]) None)
     = Raise (AuthorizationError msg_no_staff).
Proof.
  split; [exact is_management_method_true|].
  repeat split; reflexivity.
Qed.

(** C6. The role check of [rbac_verify] compares the role objects
    themselves with 0, never their status: it denies exactly when the
    principal holds no role, and a principal all of whose roles are
    disabled passes it. *)
Theorem role_check_passes_disabled_roles :
  (forall user_roles : list Role,
      (match user_roles with [] => true | _ :: _ => false end
       || forallb (fun status => role_object_eq_int status 0) user_roles)
      = match user_roles with [] => true | _ :: _ => false end)
  /\ Spec.every_role_disabled [role_disabled] = true
  /\ rbac_verify settings modules (request_of MethodType_GET (staff_of [role_disabled]) None)
     = Return tt
  /\ rbac_verify settings modules (request_of MethodType_GET (staff_of []) None)
     = Raise (AuthorizationError msg_no_role).
Proof.
  split.
  - intros [|role rs]; reflexivity.
  - repeat split; reflexivity.
Qed.

(** C7, as stated, fails: a code that only a disabled role's menu
    carries is outside the union over the enabled roles, and the request
    is allowed all the same. *)
Lemma disabled_role_code_allowed :
  let user_roles := [role_disabled; role_enabled] in
  role_status role_disabled = StatusType_disable
  /\ str_in "sys:user:add" (Spec.enabled_role_codes user_roles) = false
  /\ rbac_verify settings modules
       (request_of MethodType_GET (staff_of user_roles) (Some "sys:user:add"))
     = Return tt.
Proof. repeat split; reflexivity. Qed.

(** C7, amended. In menu-code mode, for a request that reaches the code
    check (path not white-listed, principal authenticated and not a
    superuser, some role held, some role with a menu, staff flag set)
    with a required code that is present and not in the bypass list,
    [rbac_verify] allows exactly when the code is among the codes of the
    enabled menus of the roles the principal holds, whatever the status
    of those roles, each menu's code string split on the comma; otherwise
    it raises the default permission-denied error. *)
Theorem code_check_over_all_roles
    (st : Settings) (md : Modules) (request : Request) (user : User) (code : string) :
  str_in (url_path request) (TOKEN_REQUEST_PATH_EXCLUDE st) = false ->
  existsb (fun pattern => pattern (url_path request)) (TOKEN_REQUEST_PATH_EXCLUDE_PATTERN st) = false ->
  auth request = Authenticated user ->
  is_superuser user = false ->
  roles user <> [] ->
  existsb (fun role => len (menus role) >? 0) (roles user) = true ->
  is_staff user = true ->
  RBAC_ROLE_MENU_MODE st = true ->
  state_permission request = Some code ->
  code <> "" ->
  str_in code (RBAC_ROLE_MENU_EXCLUDE st) = false ->
  Spec.menu_ids_functional (roles user) ->
  (rbac_verify st md request = Return tt <-> In code (Spec.role_codes (roles user)))
  /\ (~ In code (Spec.role_codes (roles user)) ->
      rbac_verify st md request = Raise AuthorizationError_default).
Proof.
  intros Hpath Hpat Hauth Hsup Hroles Hmenus Hstaff Hmode Hperm Hcode Hexcl Hfun.
  unfold rbac_verify, request_user. rewrite Hpath, Hpat, Hauth. simpl.
  rewrite Hsup, Hmenus, Hstaff, Hmode, Hperm.
  destruct (roles user) as [|role rs] eqn:Hrs; [congruence|]. simpl.
  rewrite andb_false_r. simpl.
  apply String.eqb_neq in Hcode. rewrite Hcode, Hexcl.
  rewrite <- (allow_perms_role_codes (role :: rs) code Hfun), <- str_in_In.
  destruct (str_in code (allow_perms (role :: rs))); simpl;
    split; try split; intros; congruence.
Qed.

Lemma code_check_over_all_roles_witness :
  (rbac_verify settings modules
     (request_of MethodType_GET (staff_of [role_disabled; role_enabled]) (Some "sys:user:edit"))
   = Return tt
   <-> In "sys:user:edit" (Spec.role_codes [role_disabled; role_enabled]))
  /\ (~ In "sys:user:edit" (Spec.role_codes [role_disabled; role_enabled]) ->
      rbac_verify settings modules
        (request_of MethodType_GET (staff_of [role_disabled; role_enabled]) (Some "sys:user:edit"))
      = Raise AuthorizationError_default).
Proof.
  apply (code_check_over_all_roles settings modules
           (request_of MethodType_GET (staff_of [role_disabled; role_enabled]) (Some "sys:user:edit"))
           (staff_of [role_disabled; role_enabled]) "sys:user:edit");
    try reflexivity; try discriminate.
  intros a b Ha Hb Hid. simpl in Ha, Hb.
  repeat (destruct Ha as [Ha|Ha]; [subst a|]); try contradiction;
    repeat (destruct Hb as [Hb|Hb]; [subst b|]); try contradiction;
    first [reflexivity | discriminate Hid].
Defined.

End RbacClaims.

(* ================================================================== *)
(** ** Predicate compiler: what [filter_data_permission] returns *)

Section CompilerFacts.

Import Permission.

Variable set_list : list Z -> list Z.
Variable st : Settings.
Variable md : Modules.

Lemma filter_lists_In (cols excl : list string) (c : string) :
  str_in c (filter (fun key => negb (str_in key excl)) cols)
  = str_in c cols && negb (str_in c excl).
Proof.
  destruct (str_in c cols && negb (str_in c excl)) eqn:E.
  - apply andb_true_iff in E. destruct E as [E1 E2].
    apply str_in_In. apply filter_In. split; [now apply str_in_In | assumption].
  - apply str_in_false. intros Hin. apply filter_In in Hin. destruct Hin as [H1 H2].
    apply str_in_In in H1. rewrite H1, H2 in E. discriminate.
Qed.

Lemma models_get_In (d : list (string * string)) (k path : string) :
  models_get d k = Some path -> In (k, path) d.
Proof.
  induction d as [|[k' v] d IH]; simpl; [discriminate|].
  destruct (String.eqb_spec k' k) as [->|Hne].
  - intros H. inversion H. now left.
  - intros H. right. now apply IH.
Qed.

(** With an importable allow-list, a rule either resolves and yields its
    (possibly absent) condition, or raises [NotFoundError]. *)
Lemma rule_condition_cases (r : DataRule) :
  Spec.models_importable st md = true ->
  (Spec.rule_resolves st md r = true /\ exists oc, rule_condition st md r = Return oc)
  \/ (Spec.rule_resolves st md r = false
      /\ (rule_condition st md r = Raise (NotFoundError msg_model)
          \/ rule_condition st md r = Raise (NotFoundError msg_column))).
Proof.
  intros Himp. unfold Spec.rule_resolves, rule_condition.
  destruct (models_get (DATA_PERMISSION_MODELS st) (rule_model r)) as [path|] eqn:Hget.
  - apply models_get_In in Hget.
    unfold Spec.models_importable in Himp. rewrite forallb_forall in Himp.
    specialize (Himp _ Hget). simpl in Himp. apply andb_true_iff in Himp.
    destruct Himp as [Hdot Hcols].
    unfold dynamic_import_data_model. rewrite Hdot. simpl.
    destruct (data_model_columns md path) as [cols|]; [|discriminate]. simpl.
    rewrite filter_lists_In.
    destruct (str_in (rule_column r) cols && negb (str_in (rule_column r) (DATA_PERMISSION_COLUMN_EXCLUDE st)));
      simpl.
    + left. split; [reflexivity|]. eexists. reflexivity.
    + right. split; [reflexivity|]. now right.
  - right. split; [reflexivity|]. now left.
Qed.

(** The loop stops with [NotFoundError] at the first rule that does not
    resolve. *)
Lemma build_where_not_found (rules : list DataRule) :
  Spec.models_importable st md = true ->
  forall r, In r rules -> Spec.rule_resolves st md r = false ->
  forall A O,
    build_where st md rules A O = Raise (NotFoundError msg_model)
    \/ build_where st md rules A O = Raise (NotFoundError msg_column).
Proof.
  intros Himp r. induction rules as [|x rules IH]; intros Hin Hbad A O; [destruct Hin|].
  simpl. destruct (rule_condition_cases x Himp) as [[Hok [oc Hoc]]|[Hno Hraise]].
  - destruct Hin as [->|Hin]; [congruence|].
    rewrite Hoc. simpl. destruct oc as [c|]; [|now apply IH].
    destruct (rule_operator x =? RoleDataRuleOperatorType_AND); [now apply IH|].
    destruct (rule_operator x =? RoleDataRuleOperatorType_OR); now apply IH.
  - destruct Hraise as [-> | ->]; simpl; auto.
Qed.

(** A rule that resolves but whose expression code matches no case adds
    nothing to either list. *)
Lemma rule_condition_unknown_expression (r : DataRule) :
  Spec.models_importable st md = true ->
  Spec.rule_resolves st md r = true ->
  Spec.known_expression (rule_expression r) = false ->
  rule_condition st md r = Return None.
Proof.
  intros Himp Hres Hunk. unfold Spec.rule_resolves in Hres. unfold rule_condition.
  destruct (models_get (DATA_PERMISSION_MODELS st) (rule_model r)) as [path|] eqn:Hget;
    [|discriminate].
  apply models_get_In in Hget.
  unfold Spec.models_importable in Himp. rewrite forallb_forall in Himp.
  specialize (Himp _ Hget). simpl in Himp. apply andb_true_iff in Himp.
  destruct Himp as [Hdot _].
  unfold dynamic_import_data_model. rewrite Hdot. simpl.
  destruct (data_model_columns md path) as [cols|]; [|discriminate]. simpl.
  rewrite filter_lists_In, Hres. simpl. f_equal.
  unfold expression_condition, Spec.known_expression in *.
  unfold RoleDataRuleExpressionType_eq, RoleDataRuleExpressionType_ne,
    RoleDataRuleExpressionType_gt, RoleDataRuleExpressionType_ge,
    RoleDataRuleExpressionType_lt, RoleDataRuleExpressionType_le,
    RoleDataRuleExpressionType_in_, RoleDataRuleExpressionType_not_in.
  apply andb_false_iff in Hunk.
  repeat match goal with
         | |- context [?a =? ?b] => destruct (Z.eqb_spec a b); [exfalso; lia|]
         end.
  reflexivity.
Qed.

Lemma build_where_skip (rules1 rules2 : list DataRule) (r : DataRule) :
  rule_condition st md r = Return None ->
  forall A O,
    build_where st md (rules1 ++ r :: rules2) A O = build_where st md (rules1 ++ rules2) A O.
Proof.
  intros Hnone. induction rules1 as [|x rules1 IH]; intros A O; simpl.
  - now rewrite Hnone.
  - destruct (rule_condition st md x) as [e|[c|]]; simpl; [reflexivity| |apply IH].
    destruct (rule_operator x =? RoleDataRuleOperatorType_AND); [apply IH|].
    destruct (rule_operator x =? RoleDataRuleOperatorType_OR); apply IH.
Qed.

(** When every rule yields a condition and joins a bucket, the loop
    ends with the two buckets appended to its accumulators. *)
Lemma build_where_buckets (rules : list DataRule) :
  (forall r, In r rules -> Spec.rule_partitions st md r) ->
  forall A O,
    build_where st md rules A O
    = Return (A ++ Spec.bucket st md RoleDataRuleOperatorType_AND rules,
              O ++ Spec.bucket st md RoleDataRuleOperatorType_OR rules)%list.
Proof.
  induction rules as [|x rules IH]; intros Hall A O; simpl.
  - now rewrite !app_nil_r.
  - destruct (Hall x (or_introl eq_refl)) as [[c Hc] Hop].
    rewrite Hc. simpl.
    assert (Hrest : forall r, In r rules -> Spec.rule_partitions st md r)
      by (intros r Hr; apply Hall; now right).
    destruct Hop as [Hop|Hop]; rewrite Hop; simpl.
    + rewrite (IH Hrest). now rewrite <- app_assoc.
    + rewrite (IH Hrest). now rewrite <- app_assoc.
Qed.

Lemma bucket_lengths (rules : list DataRule) :
  (forall r, In r rules -> Spec.rule_partitions st md r) ->
  (List.length (Spec.bucket st md RoleDataRuleOperatorType_AND rules)
   + List.length (Spec.bucket st md RoleDataRuleOperatorType_OR rules))%nat
  = List.length rules.
Proof.
  induction rules as [|x rules IH]; intros Hall; simpl; [reflexivity|].
  destruct (Hall x (or_introl eq_refl)) as [[c Hc] Hop].
  assert (Hrest : forall r, In r rules -> Spec.rule_partitions st md r)
    by (intros r Hr; apply Hall; now right).
  specialize (IH Hrest).
  rewrite Hc. destruct Hop as [Hop|Hop]; rewrite Hop; simpl;
    rewrite ?length_app; simpl; lia.
Qed.

Lemma combine_or_of_buckets (A O : list ColumnElement) :
  combine A O = Spec.or_of_buckets A O.
Proof. destruct A, O; reflexivity. Qed.

(** The dictionary of rules: keys stay distinct, each key is its rule's
    id, and every rule of every listed scope has its id among the keys. *)
Lemma fold_rules_keys_nodup (rules : list DataRule) :
  forall d : dict DataRule,
    NoDup (dict_keys d) ->
    NoDup (dict_keys (fold_left (fun d rule => dict_set d (rule_id rule) rule) rules d)).
Proof.
  induction rules as [|x rules IH]; intros d Hnd; simpl; [assumption|].
  apply IH. now apply dict_set_keys_nodup.
Qed.

Lemma fold_rules_keyed (rules : list DataRule) :
  forall d : dict DataRule,
    (forall k v, In (k, v) d -> k = rule_id v) ->
    forall k v,
      In (k, v) (fold_left (fun d rule => dict_set d (rule_id rule) rule) rules d) ->
      k = rule_id v.
Proof.
  induction rules as [|x rules IH]; intros d Hkey k v; simpl; [apply Hkey|].
  apply IH. intros k' v' Hin. apply dict_set_entry_in in Hin.
  destruct Hin as [[-> ->]|Hin]; [reflexivity | now apply Hkey].
Qed.

Lemma fold_rules_keys_in (rules : list DataRule) :
  forall (d : dict DataRule) (k : Z),
    In k (dict_keys (fold_left (fun d rule => dict_set d (rule_id rule) rule) rules d))
    <-> In k (dict_keys d) \/ In k (map rule_id rules).
Proof.
  induction rules as [|x rules IH]; intros d k; simpl; [tauto|].
  rewrite IH, dict_set_keys_in. intuition.
Qed.

Lemma load_rules_keys_nodup (d0 : Database) (ids : list Z) :
  forall d unique,
    NoDup (dict_keys d) ->
    load_rules d0 ids d = Return unique ->
    NoDup (dict_keys unique).
Proof.
  induction ids as [|i ids IH]; intros d unique Hnd; simpl.
  - intros H. inversion H. now subst.
  - destruct (Crud.get_with_relation d0 i) as [[s rules]|]; [|discriminate].
    apply IH. now apply fold_rules_keys_nodup.
Qed.

Lemma load_rules_keyed (d0 : Database) (ids : list Z) :
  forall d unique,
    (forall k v, In (k, v) d -> k = rule_id v) ->
    load_rules d0 ids d = Return unique ->
    forall k v, In (k, v) unique -> k = rule_id v.
Proof.
  induction ids as [|i ids IH]; intros d unique Hkey; simpl.
  - intros H. inversion H. now subst.
  - destruct (Crud.get_with_relation d0 i) as [[s rules]|]; [|discriminate].
    apply IH. now apply fold_rules_keyed.
Qed.

Lemma load_rules_keys_in (d0 : Database) (ids : list Z) :
  forall d unique,
    load_rules d0 ids d = Return unique ->
    forall i r, In i ids -> In r (Crud.scope_rules d0 i) -> In (rule_id r) (dict_keys unique).
Proof.
  assert (Hmono : forall ids d unique, load_rules d0 ids d = Return unique ->
                    forall k, In k (dict_keys d) -> In k (dict_keys unique)).
  { induction ids0 as [|j ids0 IH]; intros d unique; simpl.
    - intros H. inversion H. now subst.
    - destruct (Crud.get_with_relation d0 j) as [[s rules]|]; [|discriminate].
      intros H k Hk. apply (IH _ _ H). apply fold_rules_keys_in. now left. }
  induction ids as [|j ids IH]; intros d unique; simpl; [intros _ i r []|].
  destruct (Crud.get_with_relation d0 j) as [[s rules]|] eqn:Hget; [|discriminate].
  intros H i r [->|Hi] Hr.
  - apply (Hmono _ _ _ H). apply fold_rules_keys_in. right.
    unfold Crud.get_with_relation in Hget.
    destruct (Crud.select_data_scope d0 i); [|discriminate].
    inversion Hget; subst. now apply in_map.
  - now apply (IH _ _ H i r).
Qed.

Lemma dict_values_ids (unique : dict DataRule) :
  (forall k v, In (k, v) unique -> k = rule_id v) ->
  map rule_id (dict_values unique) = dict_keys unique.
Proof.
  unfold dict_values, dict_keys. induction unique as [|[k v] d IH]; intros Hkey; simpl.
  - reflexivity.
  - rewrite <- (Hkey k v (or_introl eq_refl)). f_equal. apply IH.
    intros k' v' Hin. apply Hkey. now right.
Qed.

(** The compiler past its two early returns. *)
Lemma filter_data_permission_unfold (d0 : Database) (request : Request) (user : User)
    (unique : dict DataRule) :
  auth request = Authenticated user ->
  is_superuser user = false ->
  existsb (fun role => negb (is_filter_scopes role)) (roles user) = false ->
  load_rules d0 (set_list (data_scope_adds user)) [] = Return unique ->
  filter_data_permission set_list st md d0 request
  = (buckets <- build_where st md (dict_values unique) [] [] ;;
     Return (combine (fst buckets) (snd buckets))).
Proof.
  intros Hauth Hsup Hesc Hload.
  unfold filter_data_permission, request_user. rewrite Hauth. simpl.
  rewrite Hsup, Hesc.
  destruct (set_list (data_scope_adds user)) as [|i ids] eqn:Hids.
  - simpl in Hload. inversion Hload; subst. reflexivity.
  - rewrite Hload. reflexivity.
Qed.

Lemma eval_or_of_buckets (holds : string -> string -> Operator -> Operand -> bool)
    (A O : list ColumnElement) :
  eval holds (Spec.or_of_buckets A O)
  = match A, O with
    | [], [] => true
    | _, _ =>
        (match A with [] => false | _ :: _ => forallb (eval holds) A end)
        || (match O with [] => false | _ :: _ => existsb (eval holds) O end)
    end.
Proof.
  destruct A as [|a A], O as [|o O]; simpl; rewrite ?orb_false_r; reflexivity.
Qed.

End CompilerFacts.

(** Listing by first insertion is one admissible order. *)
Lemma insertion_order_ok : Spec.set_list_ok Fixtures.insertion_order.
Proof.
  intros adds. unfold Fixtures.insertion_order. split.
  - apply NoDup_rev. apply NoDup_nodup.
  - intros x. rewrite <- in_rev, nodup_In, <- in_rev. tauto.
Qed.

Module CompilerClaims.

Import Permission Fixtures.

(** C9. For a superuser, [filter_data_permission] returns the filter
    that keeps every row, and [rbac_verify] returns without raising:
    neither roles, menus, the staff flag, the method nor the required
    code are consulted. *)
Theorem superuser_unrestricted
    (set_list : list Z -> list Z) (st : Settings) (md : Modules) (d0 : Database)
    (request : Request) (user : User) :
  auth request = Authenticated user ->
  is_superuser user = true ->
  filter_data_permission set_list st md d0 request = Return or_true
  /\ Rbac.rbac_verify st md request = Return tt
  /\ forall holds, eval holds or_true = true.
Proof.
  intros Hauth Hsup. repeat split.
  - unfold filter_data_permission, request_user. rewrite Hauth. simpl. now rewrite Hsup.
  - unfold Rbac.rbac_verify, request_user. rewrite Hauth. simpl. rewrite Hsup.
    destruct (str_in _ _); [reflexivity|]. destruct (existsb _ _); reflexivity.
Qed.

Lemma superuser_unrestricted_witness :
  filter_data_permission insertion_order settings modules ticket_db
    (request_of MethodType_DELETE root_user (Some "sys:dept:del")) = Return or_true
  /\ Rbac.rbac_verify settings modules
       (request_of MethodType_DELETE root_user (Some "sys:dept:del")) = Return tt
  /\ forall holds, eval holds or_true = true.
Proof.
  apply (superuser_unrestricted insertion_order settings modules ticket_db
           (request_of MethodType_DELETE root_user (Some "sys:dept:del")) root_user);
    reflexivity.
Defined.

(** C4. For a principal that is not a superuser and holds at least one
    role with [is_filter_scopes] false, [filter_data_permission] returns
    the filter that keeps every row, whatever scopes and rules the other
    roles carry and whatever the store holds. *)
Theorem unrestricted_role_escapes
    (set_list : list Z -> list Z) (st : Settings) (md : Modules) (d0 : Database)
    (request : Request) (user : User) (role : Role) :
  auth request = Authenticated user ->
  is_superuser user = false ->
  In role (roles user) ->
  is_filter_scopes role = false ->
  filter_data_permission set_list st md d0 request = Return or_true.
Proof.
  intros Hauth Hsup Hin Hesc.
  unfold filter_data_permission, request_user. rewrite Hauth. simpl. rewrite Hsup.
  assert (Hex : existsb (fun r => negb (is_filter_scopes r)) (roles user) = true).
  { apply existsb_exists. exists role. split; [assumption | now rewrite Hesc]. }
  now rewrite Hex.
Qed.

Lemma unrestricted_role_escapes_witness :
  filter_data_permission insertion_order ticket_settings ticket_modules ticket_db
    (request_of MethodType_GET
       (staff_of [role_scope_a; mkRole 5 StatusType_enable false [] []; role_scope_b]) None)
  = Return or_true.
Proof.
  apply (unrestricted_role_escapes insertion_order ticket_settings ticket_modules ticket_db
           (request_of MethodType_GET
              (staff_of [role_scope_a; mkRole 5 StatusType_enable false [] []; role_scope_b]) None)
           (staff_of [role_scope_a; mkRole 5 StatusType_enable false [] []; role_scope_b])
           (mkRole 5 StatusType_enable false [] []));
    try reflexivity.
  simpl. right. now left.
Defined.

(** C10. The escape-hatch loop reads [is_filter_scopes] of every held
    role and never the role's status: a disabled role with
    [is_filter_scopes] false makes [filter_data_permission] return the
    filter that keeps every row.  The scope loop that follows adds the
    id of a scope exactly when the scope's status is not 0, for the
    scopes of every held role. *)
Theorem escape_hatch_ignores_role_status
    (set_list : list Z -> list Z) (st : Settings) (md : Modules) (d0 : Database)
    (request : Request) (user : User) (role : Role) :
  Spec.set_list_ok set_list ->
  auth request = Authenticated user ->
  is_superuser user = false ->
  In role (roles user) ->
  role_status role = StatusType_disable ->
  is_filter_scopes role = false ->
  filter_data_permission set_list st md d0 request = Return or_true
  /\ forall other : User, forall x : Z,
       In x (set_list (data_scope_adds other))
       <-> exists r s, In r (roles other) /\ In s (scopes r)
                       /\ scope_status s <> StatusType_disable /\ scope_id s = x.
Proof.
  intros Hset Hauth Hsup Hin Hdis Hesc. split.
  - unfold filter_data_permission, request_user. rewrite Hauth. simpl. rewrite Hsup.
    assert (Hex : existsb (fun r => negb (is_filter_scopes r)) (roles user) = true).
    { apply existsb_exists. exists role. split; [assumption | now rewrite Hesc]. }
    now rewrite Hex.
  - intros other x. destruct (Hset (data_scope_adds other)) as [_ Hmem].
    rewrite Hmem. unfold data_scope_adds. rewrite in_flat_map. split.
    + intros [r [Hr Hx]]. apply in_flat_map in Hx. destruct Hx as [s [Hs Hx]].
      unfold truthy_int in Hx. destruct (Z.eqb_spec (scope_status s) 0) as [E|E]; simpl in Hx.
      * destruct Hx.
      * destruct Hx as [Hx|[]]. exists r, s. repeat split; assumption.
    + intros [r [s [Hr [Hs [Hst Hx]]]]]. exists r. split; [assumption|].
      apply in_flat_map. exists s. split; [assumption|].
      unfold truthy_int. destruct (Z.eqb_spec (scope_status s) 0) as [E|E]; simpl.
      * now elim Hst.
      * now left.
Qed.

Lemma escape_hatch_ignores_role_status_witness :
  let escaping := mkRole 5 StatusType_disable false [] [] in
  let user := staff_of [role_scope_a; escaping] in
  filter_data_permission insertion_order ticket_settings ticket_modules ticket_db
    (request_of MethodType_GET user None) = Return or_true
  /\ forall other : User, forall x : Z,
       In x (insertion_order (data_scope_adds other))
       <-> exists r s, In r (roles other) /\ In s (scopes r)
                       /\ scope_status s <> StatusType_disable /\ scope_id s = x.
Proof.
  apply (escape_hatch_ignores_role_status insertion_order ticket_settings ticket_modules
           ticket_db
           (request_of MethodType_GET
              (staff_of [role_scope_a; mkRole 5 StatusType_disable false [] []]) None)
           (staff_of [role_scope_a; mkRole 5 StatusType_disable false [] []])
           (mkRole 5 StatusType_disable false [] []));
    try reflexivity.
  - exact insertion_order_ok.
  - simpl. right. now left.
Defined.

End CompilerClaims.

Module RuleClaims.

Import Permission Fixtures.

(** C8. When the allow-listed classes import, a rule in the resolved
    rule list whose entity name is not in [DATA_PERMISSION_MODELS], or
    whose column is not among the entity's columns outside
    [DATA_PERMISSION_COLUMN_EXCLUDE], makes [filter_data_permission]
    raise [NotFoundError]: no filter is returned. *)
Theorem unresolvable_rule_not_found
    (set_list : list Z -> list Z) (st : Settings) (md : Modules) (d0 : Database)
    (request : Request) (user : User) (unique : dict DataRule) (r : DataRule) :
  Spec.models_importable st md = true ->
  auth request = Authenticated user ->
  is_superuser user = false ->
  existsb (fun role => negb (is_filter_scopes role)) (roles user) = false ->
  load_rules d0 (set_list (data_scope_adds user)) [] = Return unique ->
  In r (dict_values unique) ->
  Spec.rule_resolves st md r = false ->
  filter_data_permission set_list st md d0 request = Raise (NotFoundError msg_model)
  \/ filter_data_permission set_list st md d0 request = Raise (NotFoundError msg_column).
Proof.
  intros Himp Hauth Hsup Hesc Hload Hin Hbad.
  rewrite (filter_data_permission_unfold set_list st md d0 request user unique
             Hauth Hsup Hesc Hload).
  destruct (build_where_not_found st md (dict_values unique) Himp r Hin Hbad [] [])
    as [-> | ->]; simpl; auto.
Qed.

Lemma unresolvable_rule_not_found_witness :
  filter_data_permission insertion_order settings modules
    (dept_db [rule_leader; rule_del_flag]) (request_of MethodType_GET dept_user None)
  = Raise (NotFoundError msg_model)
  \/ filter_data_permission insertion_order settings modules
       (dept_db [rule_leader; rule_del_flag]) (request_of MethodType_GET dept_user None)
     = Raise (NotFoundError msg_column).
Proof.
  apply (unresolvable_rule_not_found insertion_order settings modules
           (dept_db [rule_leader; rule_del_flag])
           (request_of MethodType_GET dept_user None) dept_user
           [(4, rule_leader); (2, rule_del_flag)] rule_del_flag);
    try reflexivity.
  simpl. right. now left.
Defined.

(** C3, as stated, fails: a rule on a filterable column whose
    expression code is none of the eight raises nothing; it is left out
    and the filter is built from the rule that remains. *)
Lemma unknown_expression_dropped :
  let d0 := dept_db [rule_expr8; rule_leader] in
  let request := request_of MethodType_GET dept_user None in
  Spec.known_expression (rule_expression rule_expr8) = false
  /\ load_rules d0 (insertion_order (data_scope_adds dept_user)) []
     = Return [(1, rule_expr8); (4, rule_leader)]
  /\ is_NotFound (filter_data_permission insertion_order settings modules d0 request) = false
  /\ filter_data_permission insertion_order settings modules d0 request
     = Return (or_ [and_ [BinaryExpression "backend.app.admin.model.Dept" "leader" op_eq
                            (Scalar "ann")]]).
Proof. repeat split; reflexivity. Qed.

(** C3, amended. When the allow-listed classes import, a rule of the
    resolved rule list whose entity and column resolve and whose
    expression code is none of the eight is skipped:
    [filter_data_permission] returns what it returns on the rule list
    without that rule, and raises nothing on its account. *)
Theorem unknown_expression_skipped
    (set_list : list Z -> list Z) (st : Settings) (md : Modules) (d0 : Database)
    (request : Request) (user : User) (unique : dict DataRule)
    (rules1 rules2 : list DataRule) (r : DataRule) :
  Spec.models_importable st md = true ->
  auth request = Authenticated user ->
  is_superuser user = false ->
  existsb (fun role => negb (is_filter_scopes role)) (roles user) = false ->
  load_rules d0 (set_list (data_scope_adds user)) [] = Return unique ->
  dict_values unique = (rules1 ++ r :: rules2)%list ->
  Spec.rule_resolves st md r = true ->
  Spec.known_expression (rule_expression r) = false ->
  filter_data_permission set_list st md d0 request
  = (buckets <- build_where st md (rules1 ++ rules2) [] [] ;;
     Return (combine (fst buckets) (snd buckets))).
Proof.
  intros Himp Hauth Hsup Hesc Hload Hsplit Hres Hunk.
  rewrite (filter_data_permission_unfold set_list st md d0 request user unique
             Hauth Hsup Hesc Hload).
  rewrite Hsplit.
  rewrite (build_where_skip st md rules1 rules2 r
             (rule_condition_unknown_expression st md r Himp Hres Hunk)).
  reflexivity.
Qed.

Lemma unknown_expression_skipped_witness :
  filter_data_permission insertion_order settings modules
    (dept_db [rule_expr8; rule_leader]) (request_of MethodType_GET dept_user None)
  = (buckets <- build_where settings modules ([] ++ [rule_leader]) [] [] ;;
     Return (combine (fst buckets) (snd buckets))).
Proof.
  apply (unknown_expression_skipped insertion_order settings modules
           (dept_db [rule_expr8; rule_leader])
           (request_of MethodType_GET dept_user None) dept_user
           [(1, rule_expr8); (4, rule_leader)] [] [rule_leader] rule_expr8);
    reflexivity.
Defined.

(** C5. When every rule of the resolved, deduplicated rule list yields
    a condition and joins the AND-bucket or the OR-bucket,
    [filter_data_permission] returns
    OR(AND(AND-bucket), OR(OR-bucket)) with an empty bucket left out and
    the filter that keeps every row when both are empty.  On a row it
    holds exactly when the AND-bucket is non-empty and all its
    conditions hold, or some condition of the OR-bucket holds; with one
    condition in each bucket it is equivalent to their disjunction.
    Rule ids in the list are distinct, each rule sits in exactly one
    bucket, and every rule of every enabled scope of the principal is
    in the list. *)
Theorem two_bucket_combination
    (set_list : list Z -> list Z) (st : Settings) (md : Modules) (d0 : Database)
    (request : Request) (user : User) (unique : dict DataRule) :
  Spec.set_list_ok set_list ->
  auth request = Authenticated user ->
  is_superuser user = false ->
  existsb (fun role => negb (is_filter_scopes role)) (roles user) = false ->
  load_rules d0 (set_list (data_scope_adds user)) [] = Return unique ->
  (forall r, In r (dict_values unique) -> Spec.rule_partitions st md r) ->
  let rules := dict_values unique in
  let A := Spec.bucket st md RoleDataRuleOperatorType_AND rules in
  let O := Spec.bucket st md RoleDataRuleOperatorType_OR rules in
  filter_data_permission set_list st md d0 request = Return (Spec.or_of_buckets A O)
  /\ (forall holds,
        eval holds (Spec.or_of_buckets A O)
        = match A, O with
          | [], [] => true
          | _, _ =>
              (match A with [] => false | _ :: _ => forallb (eval holds) A end)
              || (match O with [] => false | _ :: _ => existsb (eval holds) O end)
          end)
  /\ (forall a o, A = [a] -> O = [o] ->
        forall holds, eval holds (Spec.or_of_buckets A O) = eval holds a || eval holds o)
  /\ NoDup (map rule_id rules)
  /\ (List.length A + List.length O)%nat = List.length rules
  /\ (forall role scope r,
        In role (roles user) -> In scope (scopes role) ->
        scope_status scope <> StatusType_disable ->
        In r (Crud.scope_rules d0 (scope_id scope)) ->
        In (rule_id r) (map rule_id rules)).
Proof.
  intros Hset Hauth Hsup Hesc Hload Hpart rules A O.
  assert (Hkeyed : forall k v, In (k, v) unique -> k = rule_id v).
  { eapply load_rules_keyed; [|exact Hload]. intros k v []. }
  repeat split.
  - rewrite (filter_data_permission_unfold set_list st md d0 request user unique
               Hauth Hsup Hesc Hload).
    rewrite (build_where_buckets st md (dict_values unique) Hpart [] []). simpl.
    apply f_equal. apply combine_or_of_buckets.
  - intros holds. apply eval_or_of_buckets.
  - intros a o HA HO holds. rewrite HA, HO. simpl. now rewrite !orb_false_r, andb_true_r.
  - unfold rules. rewrite (dict_values_ids unique Hkeyed).
    eapply load_rules_keys_nodup; [|exact Hload]. constructor.
  - apply (bucket_lengths st md (dict_values unique) Hpart).
  - intros role scope r Hrole Hscope Hst Hr.
    unfold rules. rewrite (dict_values_ids unique Hkeyed).
    apply (load_rules_keys_in d0 _ _ unique Hload (scope_id scope) r); [|exact Hr].
    destruct (Hset (data_scope_adds user)) as [_ Hmem]. apply Hmem.
    unfold data_scope_adds. apply in_flat_map. exists role. split; [assumption|].
    apply in_flat_map. exists scope. split; [assumption|].
    unfold truthy_int. destruct (Z.eqb_spec (scope_status scope) 0) as [E|E]; simpl.
    + now elim Hst.
    + now left.
Qed.

Lemma two_bucket_combination_witness :
  filter_data_permission insertion_order ticket_settings ticket_modules ticket_db
    (request_of MethodType_GET ticket_user None)
  = Return (or_ [and_ [dept_eq_5]; or_ [owner_eq_7]])
  /\ (forall holds,
        eval holds (or_ [and_ [dept_eq_5]; or_ [owner_eq_7]])
        = eval holds dept_eq_5 || eval holds owner_eq_7)
  /\ NoDup (map rule_id [rule_dept; rule_owner]).
Proof.
  assert (Hpart : forall r, In r (dict_values [(1, rule_dept); (2, rule_owner)]) ->
                            Spec.rule_partitions ticket_settings ticket_modules r).
  { intros r [<-|[<-|[]]]; (split; [eexists; reflexivity|]); [now left | now right]. }
  destruct (two_bucket_combination insertion_order ticket_settings ticket_modules ticket_db
              (request_of MethodType_GET ticket_user None) ticket_user
              [(1, rule_dept); (2, rule_owner)]
              insertion_order_ok eq_refl eq_refl eq_refl eq_refl Hpart)
    as (Hres & _ & Hone & Hnd & _ & _).
  split; [exact Hres|]. split; [|exact Hnd].
  intros holds. exact (Hone dept_eq_5 owner_eq_7 eq_refl eq_refl holds).
Defined.

End RuleClaims.

(* ================================================================== *)
(** ** Rule and scope-rule mutations and the user cache *)

Module CacheClaims.

Import Service Fixtures.

(** C1, as stated, fails: user 7 is reached from rule 1 (through scope
    1 and role 1) and from scope 1, and still has the cached snapshot
    after rule 1 is deleted and after the rule set of scope 1 is
    replaced. *)
Lemma reachable_snapshot_survives :
  let w := mkWorld ticket_db warm_cache in
  In 7 (users_of_rule (db w) 1)
  /\ fst (data_rule_service_delete [1] w) = Return 1
  /\ cache_get (redis (snd (data_rule_service_delete [1] w))) (user_cache_key settings 7)
     = Some "{snapshot-7}"
  /\ ~ Spec.purged settings (redis (snd (data_rule_service_delete [1] w))) 7
  /\ In 7 (users_of_scope (db w) 1)
  /\ fst (update_data_scope_rule 1 [2] w) = Return 1
  /\ ~ Spec.purged settings (redis (snd (update_data_scope_rule 1 [2] w))) 7.
Proof.
  cbv zeta. repeat split; try reflexivity; try (simpl; tauto);
    unfold Spec.purged; discriminate.
Qed.

(** C1, amended. Deleting data rules and replacing a scope's rule set
    change the store only: the cache after the mutation is the cache
    before it, so the snapshot under every user's key, reachable from the
    change or not, is what it was. *)
Theorem rule_mutations_keep_cache (st : Settings) (w : World) :
  (forall pks : list Z,
      redis (snd (data_rule_service_delete pks w)) = redis w
      /\ forall uid, cache_get (redis (snd (data_rule_service_delete pks w)))
                       (user_cache_key st uid)
                     = cache_get (redis w) (user_cache_key st uid))
  /\ (forall (pk : Z) (rule_ids : list Z),
      redis (snd (update_data_scope_rule pk rule_ids w)) = redis w
      /\ forall uid, cache_get (redis (snd (update_data_scope_rule pk rule_ids w)))
                       (user_cache_key st uid)
                     = cache_get (redis w) (user_cache_key st uid)).
Proof.
  split.
  - intros pks. unfold data_rule_service_delete.
    destruct (Crud.data_rule_delete (db w) pks) as [count db']. simpl. auto.
  - intros pk rule_ids. unfold update_data_scope_rule.
    destruct (Crud.update_rules (db w) pk rule_ids) as [e|[count db']]; simpl; auto.
Qed.

End CacheClaims.

(* ================================================================== *)
(** ** More about [rbac_verify] and the route guard *)

Section RbacDecision.

Import Rbac.

Variable st : Settings.
Variable md : Modules.

Lemma has_menu_In (user_roles : list Role) :
  existsb (fun role => len (menus role) >? 0) user_roles = true
  <-> exists role, In role user_roles /\ menus role <> [].
Proof.
  rewrite existsb_exists. split; intros [role [Hin H]]; exists role; split; try assumption.
  - intros E. rewrite E in H. cbv in H. discriminate.
  - destruct (menus role) as [|m ms]; [congruence|]. unfold len.
    apply Z.gtb_lt. simpl List.length. lia.
Qed.

Lemma has_menu_none (user_roles : list Role) :
  existsb (fun role => len (menus role) >? 0) user_roles = false
  <-> forall role, In role user_roles -> menus role = [].
Proof.
  split.
  - intros H role Hin. destruct (menus role) as [|m ms] eqn:E; [reflexivity|].
    assert (Hex : exists r, In r user_roles /\ menus r <> []) by (exists role; split; congruence).
    apply has_menu_In in Hex. congruence.
  - intros H. destruct (existsb _ user_roles) eqn:E; [|reflexivity].
    apply has_menu_In in E. destruct E as [role [Hin Hne]]. now elim Hne; apply H.
Qed.

(** [rbac_verify] under menu mode, for an authenticated principal that
    is not a superuser on a path that is not white-listed, as a chain of
    tests: neither the method nor a role's status takes part. *)
Lemma rbac_verify_menu_mode (request : Request) (user : User) :
  RBAC_ROLE_MENU_MODE st = true ->
  Props.whitelisted st (url_path request) = false ->
  auth request = Authenticated user ->
  is_superuser user = false ->
  rbac_verify st md request
  = match roles user with
    | [] => Raise (AuthorizationError msg_no_role)
    | _ :: _ =>
        if negb (existsb (fun role => len (menus role) >? 0) (roles user))
        then Raise (AuthorizationError msg_no_menu)
        else if negb (is_staff user) then Raise (AuthorizationError msg_no_staff)
        else Props.code_verdict st (roles user) (state_permission request)
    end.
Proof.
  intros Hmode Hwl Hauth Hsup. unfold Props.whitelisted in Hwl.
  apply orb_false_iff in Hwl. destruct Hwl as [Hp1 Hp2].
  unfold rbac_verify, request_user. rewrite Hp1, Hp2, Hauth. simpl. rewrite Hsup.
  destruct (roles user) as [|role rs]; [reflexivity|]. simpl.
  destruct (_ || existsb _ rs); simpl; [|reflexivity].
  rewrite is_management_method_true. simpl.
  destruct (is_staff user); simpl; [|reflexivity].
  rewrite Hmode. unfold Props.code_verdict.
  destruct (state_permission request) as [p|]; [|reflexivity].
  destruct (String.eqb p ""); [reflexivity|].
  destruct (str_in p (RBAC_ROLE_MENU_EXCLUDE st)); [reflexivity|].
  destruct (str_in p (allow_perms (role :: rs))); reflexivity.
Qed.

Lemma rbac_verify_whitelisted (request : Request) :
  Props.whitelisted st (url_path request) = true -> rbac_verify st md request = Return tt.
Proof.
  unfold Props.whitelisted, rbac_verify. intros H.
  destruct (str_in _ _); [reflexivity|]. simpl in H. now rewrite H.
Qed.

Lemma rbac_verify_unauthenticated (request : Request) :
  Props.whitelisted st (url_path request) = false ->
  auth request = Unauthenticated ->
  rbac_verify st md request = Raise TokenError_default.
Proof.
  unfold Props.whitelisted, rbac_verify. intros H Hauth.
  apply orb_false_iff in H. destruct H as [-> ->]. now rewrite Hauth.
Qed.

Lemma rbac_verify_superuser (request : Request) (user : User) :
  auth request = Authenticated user -> is_superuser user = true ->
  rbac_verify st md request = Return tt.
Proof.
  intros Hauth Hsup. unfold rbac_verify, request_user. rewrite Hauth. simpl. rewrite Hsup.
  destruct (str_in _ _); [reflexivity|]. destruct (existsb _ _); reflexivity.
Qed.

Lemma code_verdict_allows (user_roles : list Role) (perm : option string) :
  Props.code_verdict st user_roles perm = Return tt
  <-> perm = None \/ perm = Some ""
      \/ exists code, perm = Some code
                      /\ (In code (RBAC_ROLE_MENU_EXCLUDE st) \/ In code (allow_perms user_roles)).
Proof.
  unfold Props.code_verdict. destruct perm as [p|]; [|intuition].
  destruct (String.eqb_spec p "") as [->|Hne]; [intuition|].
  destruct (str_in p (RBAC_ROLE_MENU_EXCLUDE st)) eqn:E1.
  - apply str_in_In in E1. split; [|reflexivity]. intros _. right. right. exists p. auto.
  - apply str_in_false in E1. destruct (str_in p (allow_perms user_roles)) eqn:E2.
    + apply str_in_In in E2. split; [|reflexivity]. intros _. right. right. exists p. auto.
    + apply str_in_false in E2. split; [discriminate|].
      intros [H|[H|[code [H [Hin|Hin]]]]]; try discriminate;
        inversion H; subst; contradiction.
Qed.

End RbacDecision.

Module RbacMore.

Import Rbac Fixtures.

Ltac distinct_messages :=
  unfold AuthorizationError_default, TokenError_default,
    msg_no_role, msg_no_menu, msg_no_staff, msg_casbin in *;
  discriminate.

(** X1. Under menu mode [rbac_verify] returns without raising exactly
    when the path is white-listed, or the principal is a superuser, or
    the principal holds a role, some held role has a menu, the staff flag
    is set, and the required code is absent, empty, in the bypass list or
    among the codes collected from the roles' enabled menus.  The request
    method and the roles' status take no part. *)
Theorem rbac_allows_iff (st : Settings) (md : Modules) (request : Request) :
  RBAC_ROLE_MENU_MODE st = true ->
  (rbac_verify st md request = Return tt
   <-> Props.whitelisted st (url_path request) = true
       \/ exists user, auth request = Authenticated user
          /\ (is_superuser user = true
              \/ (roles user <> []
                  /\ (exists role, In role (roles user) /\ menus role <> [])
                  /\ is_staff user = true
                  /\ (state_permission request = None
                      \/ state_permission request = Some ""
                      \/ exists code, state_permission request = Some code
                           /\ (In code (RBAC_ROLE_MENU_EXCLUDE st)
                               \/ In code (allow_perms (roles user))))))).
Proof.
  intros Hmode.
  destruct (Props.whitelisted st (url_path request)) eqn:Hwl.
  { rewrite (rbac_verify_whitelisted st md request Hwl). split; auto. }
  destruct (auth request) as [|user] eqn:Hauth.
  { rewrite (rbac_verify_unauthenticated st md request Hwl Hauth). split.
    - distinct_messages.
    - intros [H|[u [H _]]]; discriminate. }
  destruct (is_superuser user) eqn:Hsup.
  { rewrite (rbac_verify_superuser st md request user Hauth Hsup). split; [|reflexivity].
    intros _. right. exists user. auto. }
  rewrite (rbac_verify_menu_mode st md request user Hmode Hwl Hauth Hsup).
  destruct (roles user) as [|role rs] eqn:Hroles.
  { split; [distinct_messages|].
    intros [H|[u [Hu [H|[H _]]]]]; try discriminate; inversion Hu; subst; congruence. }
  destruct (existsb (fun r => len (menus r) >? 0) (role :: rs)) eqn:Hmenu; simpl.
  2:{ split; [distinct_messages|].
      intros [H|[u [Hu [H|[_ [Hex _]]]]]]; try discriminate; inversion Hu; subst; try congruence.
      rewrite Hroles in Hex. apply has_menu_In in Hex. congruence. }
  destruct (is_staff user) eqn:Hstaff; simpl.
  2:{ split; [distinct_messages|].
      intros [H|[u [Hu [H|[_ [_ [Hs _]]]]]]]; try discriminate; inversion Hu; subst; congruence. }
  rewrite code_verdict_allows. split.
  - intros Hcode. right. exists user. split; [reflexivity|]. right.
    rewrite Hroles. repeat split; try discriminate; try assumption.
    now apply has_menu_In.
  - intros [H|[u [Hu [H|[_ [_ [_ Hcode]]]]]]]; try discriminate;
      inversion Hu; subst; try congruence.
    now rewrite Hroles in Hcode.
Qed.

Lemma rbac_allows_iff_witness :
  rbac_verify settings modules
    (request_of MethodType_PUT (staff_of [role_disabled]) (Some "sys:user:edit")) = Return tt
  <-> Props.whitelisted settings (FASTAPI_API_V1_PATH ++ "/sys/users") = true
      \/ exists user, Authenticated (staff_of [role_disabled]) = Authenticated user
         /\ (is_superuser user = true
             \/ (roles user <> []
                 /\ (exists role, In role (roles user) /\ menus role <> [])
                 /\ is_staff user = true
                 /\ (Some "sys:user:edit" = None
                     \/ Some "sys:user:edit" = Some ""
                     \/ exists code, Some "sys:user:edit" = Some code
                          /\ (In code (RBAC_ROLE_MENU_EXCLUDE settings)
                              \/ In code (allow_perms (roles user)))))).
Proof.
  apply (rbac_allows_iff settings modules
           (request_of MethodType_PUT (staff_of [role_disabled]) (Some "sys:user:edit"))).
  reflexivity.
Defined.

(** X2. Under menu mode, on a path that is not white-listed, every
    denial names its cause: the token error is raised exactly for an
    unauthenticated request; for an authenticated principal that is not
    a superuser, "no role" exactly when the role list is empty, "no menu"
    exactly when roles are held and none has a menu, "management
    operations" exactly when some role has a menu and the staff flag is
    off; nothing else is ever raised but the plain permission denial. *)
Theorem rbac_denial_reasons (st : Settings) (md : Modules) (request : Request) :
  RBAC_ROLE_MENU_MODE st = true ->
  Props.whitelisted st (url_path request) = false ->
  (rbac_verify st md request = Raise TokenError_default <-> auth request = Unauthenticated)
  /\ forall user, auth request = Authenticated user -> is_superuser user = false ->
       (rbac_verify st md request = Raise (AuthorizationError msg_no_role)
        <-> roles user = [])
       /\ (rbac_verify st md request = Raise (AuthorizationError msg_no_menu)
           <-> roles user <> [] /\ forall role, In role (roles user) -> menus role = [])
       /\ (rbac_verify st md request = Raise (AuthorizationError msg_no_staff)
           <-> roles user <> [] /\ (exists role, In role (roles user) /\ menus role <> [])
               /\ is_staff user = false)
       /\ (rbac_verify st md request = Return tt
           \/ rbac_verify st md request = Raise (AuthorizationError msg_no_role)
           \/ rbac_verify st md request = Raise (AuthorizationError msg_no_menu)
           \/ rbac_verify st md request = Raise (AuthorizationError msg_no_staff)
           \/ rbac_verify st md request = Raise AuthorizationError_default).
Proof.
  intros Hmode Hwl. split.
  - destruct (auth request) as [|user] eqn:Hauth.
    + rewrite (rbac_verify_unauthenticated st md request Hwl Hauth). tauto.
    + split; [|discriminate]. intros H. exfalso.
      destruct (is_superuser user) eqn:Hsup.
      * rewrite (rbac_verify_superuser st md request user Hauth Hsup) in H. discriminate.
      * rewrite (rbac_verify_menu_mode st md request user Hmode Hwl Hauth Hsup) in H.
        destruct (roles user); [distinct_messages|].
        destruct (negb _); [distinct_messages|].
        destruct (negb _); [distinct_messages|].
        unfold Props.code_verdict in H.
        destruct (state_permission request); [|discriminate].
        repeat (match type of H with (if ?b then _ else _) = _ => destruct b end;
                try discriminate).
  - intros user Hauth Hsup.
    rewrite (rbac_verify_menu_mode st md request user Hmode Hwl Hauth Hsup).
    assert (Hcv : forall p, Props.code_verdict st (roles user) p = Return tt
                            \/ Props.code_verdict st (roles user) p = Raise AuthorizationError_default).
    { intros [p|]; unfold Props.code_verdict; [|now left].
      destruct (String.eqb p ""); [now left|].
      destruct (str_in p (RBAC_ROLE_MENU_EXCLUDE st)); [now left|].
      destruct (str_in p (allow_perms (roles user))); [now left | now right]. }
    specialize (Hcv (state_permission request)).
    destruct (roles user) as [|role rs] eqn:Hroles.
    { repeat split; try reflexivity; try distinct_messages; try tauto. }
    destruct (existsb (fun r => len (menus r) >? 0) (role :: rs)) eqn:Hmenu; simpl.
    2:{ repeat split; try discriminate; try distinct_messages; try tauto.
        + exact (proj1 (has_menu_none (role :: rs)) Hmenu).
        + intros [_ [Hex _]]. apply (proj2 (has_menu_In (role :: rs))) in Hex. congruence. }
    assert (Hex : exists r, In r (role :: rs) /\ menus r <> []) by now apply has_menu_In.
    assert (Hnot : ~ (forall r, In r (role :: rs) -> menus r = [])).
    { intros Hall. apply has_menu_none in Hall. congruence. }
    destruct (is_staff user) eqn:Hstaff; simpl.
    2:{ repeat split; try discriminate; try distinct_messages; try tauto. }
    split; [|split; [|split]].
    + split; [|discriminate].
      intros H. destruct Hcv as [Hcv|Hcv]; rewrite Hcv in H; distinct_messages.
    + split.
      * intros H. destruct Hcv as [Hcv|Hcv]; rewrite Hcv in H; distinct_messages.
      * intros [_ Hall]. contradiction.
    + split.
      * intros H. destruct Hcv as [Hcv|Hcv]; rewrite Hcv in H; distinct_messages.
      * intros [_ [_ H]]. discriminate.
    + destruct Hcv as [Hcv|Hcv]; rewrite Hcv; tauto.
Qed.

Lemma rbac_denial_reasons_witness :
  (rbac_verify settings modules (request_of MethodType_GET (staff_of []) None)
   = Raise TokenError_default
   <-> Authenticated (staff_of []) = Unauthenticated)
  /\ forall user, Authenticated (staff_of []) = Authenticated user -> is_superuser user = false ->
       (rbac_verify settings modules (request_of MethodType_GET (staff_of []) None)
        = Raise (AuthorizationError msg_no_role)
        <-> roles user = [])
       /\ (rbac_verify settings modules (request_of MethodType_GET (staff_of []) None)
           = Raise (AuthorizationError msg_no_menu)
           <-> roles user <> [] /\ forall role, In role (roles user) -> menus role = [])
       /\ (rbac_verify settings modules (request_of MethodType_GET (staff_of []) None)
           = Raise (AuthorizationError msg_no_staff)
           <-> roles user <> [] /\ (exists role, In role (roles user) /\ menus role <> [])
               /\ is_staff user = false)
       /\ (rbac_verify settings modules (request_of MethodType_GET (staff_of []) None) = Return tt
           \/ rbac_verify settings modules (request_of MethodType_GET (staff_of []) None)
              = Raise (AuthorizationError msg_no_role)
           \/ rbac_verify settings modules (request_of MethodType_GET (staff_of []) None)
              = Raise (AuthorizationError msg_no_menu)
           \/ rbac_verify settings modules (request_of MethodType_GET (staff_of []) None)
              = Raise (AuthorizationError msg_no_staff)
           \/ rbac_verify settings modules (request_of MethodType_GET (staff_of []) None)
              = Raise AuthorizationError_default).
Proof.
  apply (rbac_denial_reasons settings modules (request_of MethodType_GET (staff_of []) None));
    reflexivity.
Defined.

End RbacMore.

Section RoleGrowth.

Import Rbac.

Lemma menu_ids_functional_prefix (rs : list Role) (r : Role) :
  Spec.menu_ids_functional (rs ++ [r]) -> Spec.menu_ids_functional rs.
Proof.
  unfold Spec.menu_ids_functional. intros H a b Ha Hb.
  apply H; rewrite flat_map_app; apply in_or_app; now left.
Qed.

Lemma allow_perms_add_role (rs : list Role) (r : Role) (code : string) :
  Spec.menu_ids_functional (rs ++ [r]) ->
  In code (allow_perms rs) -> In code (allow_perms (rs ++ [r])).
Proof.
  intros Hfun Hin.
  apply (allow_perms_role_codes (rs ++ [r]) code Hfun).
  apply (allow_perms_role_codes rs code (menu_ids_functional_prefix rs r Hfun)) in Hin.
  unfold Spec.role_codes in *. rewrite flat_map_app. apply in_or_app. now left.
Qed.

End RoleGrowth.

Module GuardMore.

Import Rbac Guard Fixtures.

(** X3. Under menu mode, giving a principal one more role never turns
    an allowed request into a denied one, provided menus that share an
    id are the same menu across the enlarged role list. *)
Theorem added_role_keeps_access
    (st : Settings) (md : Modules) (request : Request) (user : User) (role : Role) :
  RBAC_ROLE_MENU_MODE st = true ->
  auth request = Authenticated user ->
  Spec.menu_ids_functional (roles user ++ [role]) ->
  rbac_verify st md request = Return tt ->
  rbac_verify st md (Props.with_user request (Props.with_role user role)) = Return tt.
Proof.
  intros Hmode Hauth Hfun Hok.
  destruct (Props.whitelisted st (url_path request)) eqn:Hwl.
  { now apply rbac_verify_whitelisted. }
  destruct (is_superuser user) eqn:Hsup.
  { now apply (rbac_verify_superuser st md
                 (Props.with_user request (Props.with_role user role))
                 (Props.with_role user role)). }
  rewrite (rbac_verify_menu_mode st md request user Hmode Hwl Hauth Hsup) in Hok.
  rewrite (rbac_verify_menu_mode st md
             (Props.with_user request (Props.with_role user role))
             (Props.with_role user role) Hmode Hwl eq_refl Hsup).
  simpl. destruct (roles user) as [|r0 rs] eqn:Hroles; [discriminate|].
  change (((r0 :: rs) ++ [role])%list) with (r0 :: (rs ++ [role]))%list.
  cbv iota.
  change (r0 :: (rs ++ [role]))%list with ((r0 :: rs) ++ [role])%list.
  rewrite existsb_app.
  destruct (existsb (fun r => len (menus r) >? 0) (r0 :: rs)); [|discriminate].
  simpl negb in *. cbv iota in *.
  destruct (is_staff user); [|discriminate]. simpl negb in *. cbv iota in *.
  apply code_verdict_allows in Hok. apply code_verdict_allows.
  destruct Hok as [H|[H|[code [H [Hin|Hin]]]]]; auto.
  - right. right. exists code. auto.
  - right. right. exists code. split; [assumption|]. right.
    now apply allow_perms_add_role.
Qed.

Lemma added_role_keeps_access_witness :
  rbac_verify settings modules
    (Props.with_user
       (request_of MethodType_GET (staff_of [role_disabled]) (Some "sys:user:add"))
       (Props.with_role (staff_of [role_disabled]) role_enabled))
  = Return tt.
Proof.
  apply (added_role_keeps_access settings modules
           (request_of MethodType_GET (staff_of [role_disabled]) (Some "sys:user:add"))
           (staff_of [role_disabled]) role_enabled);
    try reflexivity.
  intros a b Ha Hb Hid. simpl in Ha, Hb.
  repeat (destruct Ha as [Ha|Ha]; [subst a|]); try contradiction;
    repeat (destruct Hb as [Hb|Hb]; [subst b|]); try contradiction;
    first [reflexivity | discriminate Hid].
Defined.

(** X4. With menu mode off and no casbin plugin installed,
    [rbac_verify] returns without raising exactly for white-listed paths
    and superusers; a staff principal that holds a role with a menu gets
    the server error, whatever the request asks for. *)
Theorem without_plugin_only_superusers_pass
    (st : Settings) (md : Modules) (request : Request) :
  RBAC_ROLE_MENU_MODE st = false ->
  casbin_verify md = None ->
  (rbac_verify st md request = Return tt
   <-> Props.whitelisted st (url_path request) = true
       \/ exists user, auth request = Authenticated user /\ is_superuser user = true)
  /\ forall user,
       Props.whitelisted st (url_path request) = false ->
       auth request = Authenticated user -> is_superuser user = false ->
       roles user <> [] ->
       (exists role, In role (roles user) /\ menus role <> []) ->
       is_staff user = true ->
       rbac_verify st md request = Raise (ServerError msg_casbin).
Proof.
  intros Hmode Hcas.
  assert (Hbody : forall user,
             Props.whitelisted st (url_path request) = false ->
             auth request = Authenticated user -> is_superuser user = false ->
             rbac_verify st md request
             = match roles user with
               | [] => Raise (AuthorizationError msg_no_role)
               | _ :: _ =>
                   if negb (existsb (fun r => len (menus r) >? 0) (roles user))
                   then Raise (AuthorizationError msg_no_menu)
                   else if negb (is_staff user) then Raise (AuthorizationError msg_no_staff)
                   else Raise (ServerError msg_casbin)
               end).
  { intros user Hwl Hauth Hsup. unfold Props.whitelisted in Hwl.
    apply orb_false_iff in Hwl. destruct Hwl as [Hp1 Hp2].
    unfold rbac_verify, request_user. rewrite Hp1, Hp2, Hauth. simpl. rewrite Hsup.
    destruct (roles user) as [|r0 rs]; [reflexivity|]. simpl.
    destruct (_ || existsb _ rs); simpl; [|reflexivity].
    rewrite is_management_method_true. simpl.
    destruct (is_staff user); simpl; [|reflexivity].
    now rewrite Hmode, Hcas. }
  split.
  - destruct (Props.whitelisted st (url_path request)) eqn:Hwl.
    { rewrite (rbac_verify_whitelisted st md request Hwl). split; auto. }
    destruct (auth request) as [|user] eqn:Hauth.
    { rewrite (rbac_verify_unauthenticated st md request Hwl Hauth). split.
      - discriminate.
      - intros [H|[u [H _]]]; discriminate. }
    destruct (is_superuser user) eqn:Hsup.
    { rewrite (rbac_verify_superuser st md request user Hauth Hsup). split; [|reflexivity].
      intros _. right. exists user. auto. }
    rewrite (Hbody user eq_refl eq_refl Hsup). split.
    + destruct (roles user); [discriminate|].
      destruct (negb _); [discriminate|]. destruct (negb _); discriminate.
    + intros [H|[u [Hu H]]]; [discriminate|]. inversion Hu; subst. congruence.
  - intros user Hwl Hauth Hsup Hroles Hex Hstaff.
    rewrite (Hbody user Hwl Hauth Hsup).
    destruct (roles user) as [|r0 rs] eqn:E; [congruence|].
    apply has_menu_In in Hex. rewrite Hex, Hstaff. reflexivity.
Qed.

Lemma without_plugin_only_superusers_pass_witness :
  let st := {| TOKEN_REQUEST_PATH_EXCLUDE := TOKEN_REQUEST_PATH_EXCLUDE settings;
               TOKEN_REQUEST_PATH_EXCLUDE_PATTERN := TOKEN_REQUEST_PATH_EXCLUDE_PATTERN settings;
               JWT_USER_REDIS_PREFIX := JWT_USER_REDIS_PREFIX settings;
               RBAC_ROLE_MENU_MODE := false;
               RBAC_ROLE_MENU_EXCLUDE := RBAC_ROLE_MENU_EXCLUDE settings;
               DATA_PERMISSION_MODELS := DATA_PERMISSION_MODELS settings;
               DATA_PERMISSION_COLUMN_EXCLUDE := DATA_PERMISSION_COLUMN_EXCLUDE settings |} in
  let request := request_of MethodType_GET (staff_of [role_enabled]) None in
  (rbac_verify st modules request = Return tt
   <-> Props.whitelisted st (url_path request) = true
       \/ exists user, auth request = Authenticated user /\ is_superuser user = true)
  /\ forall user,
       Props.whitelisted st (url_path request) = false ->
       auth request = Authenticated user -> is_superuser user = false ->
       roles user <> [] ->
       (exists role, In role (roles user) /\ menus role <> []) ->
       is_staff user = true ->
       rbac_verify st modules request = Raise (ServerError msg_casbin).
Proof.
  cbv zeta.
  apply without_plugin_only_superusers_pass; reflexivity.
Defined.

(** X5. A route guarded by [RequestPermission(value)] followed by
    [DependsRBAC]: under menu mode a value that is not a string fails
    with the server error before any white list or superuser test; a
    string value replaces whatever code the request carried, so the
    verdict is that of [rbac_verify] for that code, and for an
    authenticated principal that is not a superuser on a path that is
    not white-listed the route is open exactly when a role is held, some
    role has a menu, the staff flag is set and the code is empty, in the
    bypass list or among the collected codes.  With menu mode off the
    value is ignored. *)
Theorem route_guard_verdict
    (st : Settings) (md : Modules) (request : Request) :
  (RBAC_ROLE_MENU_MODE st = true ->
   route_dependencies st md PyOther request = Raise (ServerError "Internal Server Error")
   /\ forall (code : string) (user : User),
        Props.whitelisted st (url_path request) = false ->
        auth request = Authenticated user -> is_superuser user = false ->
        (route_dependencies st md (PyStr code) request = Return tt
         <-> roles user <> []
             /\ (exists role, In role (roles user) /\ menus role <> [])
             /\ is_staff user = true
             /\ (code = "" \/ In code (RBAC_ROLE_MENU_EXCLUDE st)
                 \/ In code (allow_perms (roles user)))))
  /\ (RBAC_ROLE_MENU_MODE st = false ->
      forall value, route_dependencies st md value request = rbac_verify st md request).
Proof.
  split.
  - intros Hmode. split.
    + unfold route_dependencies, request_permission. now rewrite Hmode.
    + intros code user Hwl Hauth Hsup.
      unfold route_dependencies, request_permission. rewrite Hmode. unfold bind.
      match goal with
      | |- context [rbac_verify st md ?r] =>
          rewrite (rbac_verify_menu_mode st md r user Hmode Hwl Hauth Hsup)
      end.
      cbn [state_permission].
      destruct (roles user) as [|r0 rs] eqn:Hroles.
      { split; [discriminate | intros [H _]; congruence]. }
      destruct (existsb (fun r => len (menus r) >? 0) (r0 :: rs)) eqn:Hmenu; cbn [negb].
      2:{ split; [discriminate|]. intros [_ [Hex _]].
          apply (proj2 (has_menu_In (r0 :: rs))) in Hex. congruence. }
      destruct (is_staff user) eqn:Hstaff; cbn [negb].
      2:{ split; [discriminate|]. intros [_ [_ [H _]]]. discriminate. }
      rewrite code_verdict_allows. split.
      * intros [H|[H|[c [H Hin]]]]; [discriminate| |]; inversion H; subst;
          (repeat split; [discriminate | now apply has_menu_In | tauto]).
      * intros [_ [_ [_ [H|H]]]].
        -- right. left. now subst.
        -- right. right. exists code. auto.
  - intros Hmode value. unfold route_dependencies, request_permission. now rewrite Hmode.
Qed.

End GuardMore.

(* ================================================================== *)
(** ** More about [filter_data_permission] *)

Section CompilerMore.

Import Permission.

Variable st : Settings.
Variable md : Modules.
Variable d0 : Database.

(** What the store returns for an id is the rule stored under that id. *)
Lemma scope_rules_selected (i : Z) (r : DataRule) :
  In r (Crud.scope_rules d0 i) -> Crud.select_data_rule d0 (rule_id r) = Some r.
Proof.
  unfold Crud.scope_rules. rewrite in_flat_map. intros [[s k] [_ Hin]]. simpl in Hin.
  destruct (s =? i); [|destruct Hin].
  destruct (Crud.select_data_rule d0 k) as [r'|] eqn:Hsel; [|destruct Hin].
  destruct Hin as [<-|[]].
  unfold Crud.select_data_rule in *.
  destruct (find_some _ _ Hsel) as [_ Hid]. apply Z.eqb_eq in Hid. now rewrite Hid.
Qed.


Lemma selected_keyed (d : dict DataRule) (k : Z) (v : DataRule) :
  Props.selected d0 d -> In (k, v) d -> k = rule_id v.
Proof.
  intros Hsel Hin. specialize (Hsel k v Hin). unfold Crud.select_data_rule in Hsel.
  destruct (find_some _ _ Hsel) as [_ Hid]. apply Z.eqb_eq in Hid. now symmetry.
Qed.

Lemma fold_rules_entries (rules : list DataRule) :
  forall d : dict DataRule,
    Props.selected d0 d ->
    (forall r, In r rules -> Crud.select_data_rule d0 (rule_id r) = Some r) ->
    Props.selected d0 (fold_left (fun d rule => dict_set d (rule_id rule) rule) rules d)
    /\ forall k v,
         In (k, v) (fold_left (fun d rule => dict_set d (rule_id rule) rule) rules d)
         <-> In (k, v) d \/ (In v rules /\ k = rule_id v).
Proof.
  induction rules as [|x rules IH]; intros d Hsel Hrules; simpl.
  - split; [assumption | intros k v; tauto].
  - assert (Hsel' : Props.selected d0 (dict_set d (rule_id x) x)).
    { intros k v Hin. apply dict_set_entry_in in Hin.
      destruct Hin as [[-> ->]|Hin]; [apply Hrules; now left | now apply Hsel]. }
    destruct (IH (dict_set d (rule_id x) x) Hsel')
      as [Hres Hiff]; [intros r Hr; apply Hrules; now right|].
    split; [assumption|]. intros k v. rewrite Hiff. split.
    + intros [Hin|[Hin Hk]]; [|right; split; [now right | assumption]].
      apply dict_set_entry_in in Hin. destruct Hin as [[-> ->]|Hin]; [right | now left].
      split; [now left | reflexivity].
    + intros [Hin|[[->|Hin] Hk]].
      * left. apply dict_set_entry_kept; [|assumption].
        intros ->. specialize (Hsel _ _ Hin).
        rewrite (Hrules x (or_introl eq_refl)) in Hsel. now inversion Hsel.
      * subst k. left. clear. induction d as [|[k0 v0] d IHd]; simpl; [now left|].
        destruct (Z.eqb_spec k0 (rule_id v)) as [->|Hne]; [now left | now right].
      * now right.
Qed.

(** The dictionary of rules after the scope loop. *)
Lemma load_rules_entries (ids : list Z) :
  forall d unique,
    Props.selected d0 d ->
    load_rules d0 ids d = Return unique ->
    Props.selected d0 unique
    /\ forall k v,
         In (k, v) unique
         <-> In (k, v) d \/ exists i, In i ids /\ In v (Crud.scope_rules d0 i) /\ k = rule_id v.
Proof.
  induction ids as [|i ids IH]; intros d unique Hsel; simpl.
  - intros H. inversion H; subst. split; [assumption|].
    intros k v. split; [tauto | intros [H1|[j [[] _]]]; assumption].
  - unfold Crud.get_with_relation.
    destruct (Crud.select_data_scope d0 i) as [s|]; [|discriminate].
    intros Hload.
    destruct (fold_rules_entries (Crud.scope_rules d0 i) d Hsel (scope_rules_selected i))
      as [Hsel' Hiff'].
    destruct (IH _ _ Hsel' Hload) as [Hres Hiff].
    split; [assumption|]. intros k v. rewrite Hiff, Hiff'. split.
    + intros [[Hin|[Hin Hk]]|[j [Hj Hrest]]].
      * now left.
      * right. exists i. split; [now left | tauto].
      * right. exists j. split; [now right | assumption].
    + intros [Hin|[j [[->|Hj] [Hin Hk]]]].
      * left. now left.
      * left. right. tauto.
      * right. exists j. tauto.
Qed.

Lemma load_rules_total (ids : list Z) :
  forall d,
    (forall i, In i ids -> Crud.select_data_scope d0 i <> None) ->
    exists unique, load_rules d0 ids d = Return unique.
Proof.
  induction ids as [|i ids IH]; intros d Hall; simpl.
  - now exists d.
  - unfold Crud.get_with_relation.
    destruct (Crud.select_data_scope d0 i) as [s|] eqn:E.
    + apply IH. intros j Hj. apply Hall. now right.
    + now elim (Hall i (or_introl eq_refl)).
Qed.

Lemma load_rules_raises (ids : list Z) :
  forall d e,
    load_rules d0 ids d = Raise e ->
    e = AttributeError /\ exists i, In i ids /\ Crud.select_data_scope d0 i = None.
Proof.
  induction ids as [|i ids IH]; intros d e; simpl; [discriminate|].
  unfold Crud.get_with_relation.
  destruct (Crud.select_data_scope d0 i) as [s|] eqn:E.
  - intros H. destruct (IH _ _ H) as [He [j [Hj Hnone]]].
    split; [assumption|]. exists j. split; [now right | assumption].
  - intros H. inversion H. split; [reflexivity|]. exists i. split; [now left | assumption].
Qed.

Lemma load_rules_missing (ids : list Z) (i : Z) :
  In i ids -> Crud.select_data_scope d0 i = None ->
  forall d, load_rules d0 ids d = Raise AttributeError.
Proof.
  intros Hin Hnone d.
  destruct (load_rules d0 ids d) as [e|unique] eqn:E.
  - destruct (load_rules_raises ids d e E) as [-> _]. reflexivity.
  - exfalso. revert d unique E. induction ids as [|j ids IH]; intros d unique; simpl;
      [destruct Hin|].
    unfold Crud.get_with_relation.
    destruct (Crud.select_data_scope d0 j) as [s|] eqn:Ej; [|discriminate].
    destruct Hin as [->|Hin]; [congruence|]. now apply IH.
Qed.

(** The rule loop succeeds exactly when every rule passes the model and
    column checks; it then returns the two buckets. *)
Lemma build_where_returns (rules : list DataRule) :
  (forall r, In r rules -> exists oc, rule_condition st md r = Return oc) ->
  forall A O,
    build_where st md rules A O
    = Return (A ++ Spec.bucket st md RoleDataRuleOperatorType_AND rules,
              O ++ Spec.bucket st md RoleDataRuleOperatorType_OR rules)%list.
Proof.
  induction rules as [|x rules IH]; intros Hall A O; simpl.
  - now rewrite !app_nil_r.
  - destruct (Hall x (or_introl eq_refl)) as [oc Hoc]. rewrite Hoc. simpl.
    assert (Hrest : forall r, In r rules -> exists oc, rule_condition st md r = Return oc)
      by (intros r Hr; apply Hall; now right).
    destruct oc as [c|].
    + destruct (Z.eqb_spec (rule_operator x) RoleDataRuleOperatorType_AND) as [Ea|Ea].
      * rewrite Ea. simpl. rewrite (IH Hrest). now rewrite <- app_assoc.
      * destruct (Z.eqb_spec (rule_operator x) RoleDataRuleOperatorType_OR) as [Eo|Eo].
        -- rewrite (IH Hrest). simpl. now rewrite <- app_assoc.
        -- now rewrite (IH Hrest).
    + destruct (rule_operator x =? RoleDataRuleOperatorType_AND),
               (rule_operator x =? RoleDataRuleOperatorType_OR); simpl; apply (IH Hrest).
Qed.

Lemma build_where_raises (rules : list DataRule) :
  forall A O e,
    build_where st md rules A O = Raise e ->
    exists r, In r rules /\ rule_condition st md r = Raise e.
Proof.
  induction rules as [|x rules IH]; intros A O e; simpl; [discriminate|].
  destruct (rule_condition st md x) as [e'|oc] eqn:E; simpl.
  - intros H. inversion H; subst. exists x. split; [now left | assumption].
  - intros H.
    assert (Hrec : exists A' O', build_where st md rules A' O' = Raise e).
    { destruct oc as [c|]; [|eauto].
      destruct (rule_operator x =? RoleDataRuleOperatorType_AND); [eauto|].
      destruct (rule_operator x =? RoleDataRuleOperatorType_OR); eauto. }
    destruct Hrec as [A' [O' Hrec]]. destruct (IH _ _ _ Hrec) as [r [Hr He]].
    exists r. split; [now right | assumption].
Qed.

Lemma build_where_fails (rules : list DataRule) (r : DataRule) (e : Error) :
  In r rules -> rule_condition st md r = Raise e ->
  forall A O, exists e', build_where st md rules A O = Raise e'.
Proof.
  intros Hin He A O.
  destruct (build_where st md rules A O) as [e'|res] eqn:E; [eauto|].
  exfalso. revert A O res E. induction rules as [|x rules IH]; intros A O res; simpl;
    [destruct Hin|].
  destruct Hin as [->|Hin].
  - rewrite He. discriminate.
  - destruct (rule_condition st md x) as [e'|oc]; simpl; [discriminate|].
    destruct oc as [c|]; [|now apply IH].
    destruct (rule_operator x =? RoleDataRuleOperatorType_AND); [now apply IH|].
    destruct (rule_operator x =? RoleDataRuleOperatorType_OR); now apply IH.
Qed.

(** Meaning of the two-bucket filter under reordering. *)
Lemma forallb_Permutation {A : Type} (f : A -> bool) (l l' : list A) :
  Permutation l l' -> forallb f l = forallb f l'.
Proof.
  induction 1; simpl; try congruence.
  destruct (f x), (f y); reflexivity.
Qed.

Lemma existsb_Permutation {A : Type} (f : A -> bool) (l l' : list A) :
  Permutation l l' -> existsb f l = existsb f l'.
Proof.
  induction 1; simpl; try congruence.
  destruct (f x), (f y); reflexivity.
Qed.

Lemma eval_or_of_buckets_Permutation
    (holds : string -> string -> Operator -> Operand -> bool)
    (A A' O O' : list ColumnElement) :
  Permutation A A' -> Permutation O O' ->
  eval holds (Spec.or_of_buckets A O) = eval holds (Spec.or_of_buckets A' O').
Proof.
  intros HA HO. rewrite !eval_or_of_buckets.
  rewrite (forallb_Permutation (eval holds) A A' HA).
  rewrite (existsb_Permutation (eval holds) O O' HO).
  destruct A as [|a A], A' as [|a' A'], O as [|o O], O' as [|o' O']; try reflexivity;
    try (apply Permutation_nil in HA; discriminate);
    try (apply Permutation_nil in HO; discriminate);
    try (apply Permutation_sym in HA; apply Permutation_nil in HA; discriminate);
    try (apply Permutation_sym in HO; apply Permutation_nil in HO; discriminate).
Qed.

Lemma bucket_Permutation (op : Z) (rules rules' : list DataRule) :
  Permutation rules rules' ->
  Permutation (Spec.bucket st md op rules) (Spec.bucket st md op rules').
Proof. intros H. unfold Spec.bucket. now apply Permutation_flat_map. Qed.

End CompilerMore.

Section CompilerMore2.

Import Permission.

Variable set_list : list Z -> list Z.
Variable st : Settings.
Variable md : Modules.
Variable d0 : Database.

Lemma data_scope_adds_In (user : User) (x : Z) :
  In x (data_scope_adds user)
  <-> exists role scope, In role (roles user) /\ In scope (scopes role)
                         /\ scope_status scope <> StatusType_disable /\ scope_id scope = x.
Proof.
  unfold data_scope_adds. rewrite in_flat_map. split.
  - intros [r [Hr Hx]]. apply in_flat_map in Hx. destruct Hx as [s [Hs Hx]].
    unfold truthy_int in Hx. destruct (Z.eqb_spec (scope_status s) 0) as [E|E]; simpl in Hx.
    + destruct Hx.
    + destruct Hx as [Hx|[]]. exists r, s. repeat split; assumption.
  - intros [r [s [Hr [Hs [Hst Hx]]]]]. exists r. split; [assumption|].
    apply in_flat_map. exists s. split; [assumption|].
    unfold truthy_int. destruct (Z.eqb_spec (scope_status s) 0) as [E|E]; simpl.
    + now elim Hst.
    + now left.
Qed.

Lemma set_list_nil (adds : list Z) :
  Spec.set_list_ok set_list -> (forall x, ~ In x adds) -> set_list adds = [].
Proof.
  intros Hset Hno. destruct (Hset adds) as [_ Hmem].
  destruct (set_list adds) as [|x l]; [reflexivity|].
  exfalso. apply (Hno x). apply Hmem. now left.
Qed.

(** What [rule_condition] can raise. *)
Lemma rule_condition_raises (r : DataRule) (e : Error) :
  rule_condition st md r = Raise e ->
  e = NotFoundError msg_model \/ e = NotFoundError msg_column
  \/ e = ServerError msg_import \/ e = ValueError.
Proof.
  unfold rule_condition.
  destruct (models_get (DATA_PERMISSION_MODELS st) (rule_model r)) as [path|].
  - unfold dynamic_import_data_model.
    destruct (negb (has_dot path)); simpl.
    + intros H. inversion H. auto.
    + destruct (data_model_columns md path) as [cols|]; simpl.
      * destruct (negb _); intros H; inversion H. auto.
      * intros H. inversion H. auto.
  - intros H. inversion H. auto.
Qed.

(** The compiler past its early returns, when the scope list is not
    empty (or when it is, with the empty dictionary). *)
Lemma filter_data_permission_raise_load (request : Request) (user : User) (e : Error) :
  auth request = Authenticated user ->
  is_superuser user = false ->
  existsb (fun role => negb (is_filter_scopes role)) (roles user) = false ->
  load_rules d0 (set_list (data_scope_adds user)) [] = Raise e ->
  filter_data_permission set_list st md d0 request = Raise e.
Proof.
  intros Hauth Hsup Hesc Hload.
  unfold filter_data_permission, request_user. rewrite Hauth. simpl. rewrite Hsup, Hesc.
  destruct (set_list (data_scope_adds user)) as [|i ids] eqn:Hids.
  - simpl in Hload. discriminate.
  - now rewrite Hload.
Qed.

End CompilerMore2.

(** Every rule of a listed scope is a value of the dictionary, and
    every value is a rule of a listed scope. *)
Lemma load_rules_values (d0 : Database) (ids : list Z) (unique : dict DataRule) :
  Permission.load_rules d0 ids [] = Return unique ->
  forall v, In v (dict_values unique) <-> exists i, In i ids /\ In v (Crud.scope_rules d0 i).
Proof.
  intros Hload v.
  destruct (load_rules_entries d0 ids [] unique) as [_ Hiff];
    [intros k w [] | assumption |].
  unfold dict_values. rewrite in_map_iff. split.
  - intros [[k w] [Hw Hin]]. simpl in Hw. subst w. apply Hiff in Hin.
    destruct Hin as [[]|[i [Hi [Hv _]]]]. now exists i.
  - intros [i [Hi Hv]]. exists (rule_id v, v). split; [reflexivity|].
    apply Hiff. right. exists i. tauto.
Qed.

Module FilterMore.

Import Permission Fixtures.

(** X6. When every enabled scope of the principal is in the store and
    holds no rule (in particular when the principal has no enabled scope
    at all), [filter_data_permission] returns the filter that keeps
    every row. *)
Theorem ruleless_scopes_unrestricted
    (set_list : list Z -> list Z) (st : Settings) (md : Modules) (d0 : Database)
    (request : Request) (user : User) :
  Spec.set_list_ok set_list ->
  auth request = Authenticated user ->
  (forall role scope,
      In role (roles user) -> In scope (scopes role) ->
      scope_status scope <> StatusType_disable ->
      Crud.select_data_scope d0 (scope_id scope) <> None
      /\ Crud.scope_rules d0 (scope_id scope) = []) ->
  filter_data_permission set_list st md d0 request = Return or_true.
Proof.
  intros Hset Hauth Hall.
  destruct (is_superuser user) eqn:Hsup.
  { unfold filter_data_permission, request_user. rewrite Hauth. simpl. now rewrite Hsup. }
  destruct (existsb (fun role => negb (is_filter_scopes role)) (roles user)) eqn:Hesc.
  { unfold filter_data_permission, request_user. rewrite Hauth. simpl. now rewrite Hsup, Hesc. }
  destruct (Hset (data_scope_adds user)) as [_ Hmem].
  destruct (load_rules_total d0 (set_list (data_scope_adds user)) []) as [unique Hload].
  { intros i Hi. apply Hmem in Hi. apply data_scope_adds_In in Hi.
    destruct Hi as [role [scope [Hr [Hs [Hst <-]]]]]. now apply (Hall role scope). }
  rewrite (filter_data_permission_unfold set_list st md d0 request user unique
             Hauth Hsup Hesc Hload).
  assert (Hnil : dict_values unique = []).
  { destruct (dict_values unique) as [|v vs] eqn:E; [reflexivity|]. exfalso.
    assert (Hv : In v (dict_values unique)) by (rewrite E; now left).
    apply (load_rules_values d0 _ unique Hload) in Hv. destruct Hv as [i [Hi Hv]].
    apply Hmem in Hi. apply data_scope_adds_In in Hi.
    destruct Hi as [role [scope [Hr [Hs [Hst <-]]]]].
    destruct (Hall role scope Hr Hs Hst) as [_ Hempty]. rewrite Hempty in Hv. destruct Hv. }
  rewrite Hnil. reflexivity.
Qed.

Lemma ruleless_scopes_unrestricted_witness :
  filter_data_permission insertion_order settings modules (dept_db [])
    (request_of MethodType_GET dept_user None) = Return or_true.
Proof.
  apply (ruleless_scopes_unrestricted insertion_order settings modules (dept_db [])
           (request_of MethodType_GET dept_user None) dept_user).
  - exact insertion_order_ok.
  - reflexivity.
  - intros role scope Hr Hs _. simpl in Hr. destruct Hr as [<-|[]].
    simpl in Hs. destruct Hs as [<-|[]]. split; [discriminate | reflexivity].
Defined.

(** X7. For a principal that is not a superuser and all of whose roles
    filter, [filter_data_permission] raises [AttributeError] exactly
    when some enabled scope of the principal is no longer in the store:
    the scope loop reads [.rules] of the [None] that
    [get_with_relation] returns. *)
Theorem stale_scope_attribute_error
    (set_list : list Z -> list Z) (st : Settings) (md : Modules) (d0 : Database)
    (request : Request) (user : User) :
  Spec.set_list_ok set_list ->
  auth request = Authenticated user ->
  is_superuser user = false ->
  existsb (fun role => negb (is_filter_scopes role)) (roles user) = false ->
  (filter_data_permission set_list st md d0 request = Raise AttributeError
   <-> exists role scope,
         In role (roles user) /\ In scope (scopes role)
         /\ scope_status scope <> StatusType_disable
         /\ Crud.select_data_scope d0 (scope_id scope) = None).
Proof.
  intros Hset Hauth Hsup Hesc.
  destruct (Hset (data_scope_adds user)) as [_ Hmem]. split.
  - intros Hres.
    destruct (load_rules d0 (set_list (data_scope_adds user)) []) as [e|unique] eqn:Hload.
    + destruct (load_rules_raises d0 _ _ _ Hload) as [_ [i [Hi Hnone]]].
      apply Hmem in Hi. apply data_scope_adds_In in Hi.
      destruct Hi as [role [scope [Hr [Hs [Hst <-]]]]]. exists role, scope. tauto.
    + exfalso.
      rewrite (filter_data_permission_unfold set_list st md d0 request user unique
                 Hauth Hsup Hesc Hload) in Hres.
      destruct (build_where st md (dict_values unique) [] []) as [e|res] eqn:Hbw;
        simpl in Hres; [|discriminate].
      inversion Hres; subst.
      destruct (build_where_raises st md _ _ _ _ Hbw) as [r [_ Hr]].
      destruct (rule_condition_raises st md r _ Hr) as [H|[H|[H|H]]]; discriminate.
  - intros [role [scope [Hr [Hs [Hst Hnone]]]]].
    apply (filter_data_permission_raise_load set_list st md d0 request user _ Hauth Hsup Hesc).
    apply (load_rules_missing d0 _ (scope_id scope)); [|assumption].
    apply Hmem. apply data_scope_adds_In. exists role, scope. tauto.
Qed.

Lemma stale_scope_attribute_error_witness :
  filter_data_permission insertion_order ticket_settings ticket_modules (dept_db [])
    (request_of MethodType_GET ticket_user None) = Raise AttributeError
  <-> exists role scope,
        In role (roles ticket_user) /\ In scope (scopes role)
        /\ scope_status scope <> StatusType_disable
        /\ Crud.select_data_scope (dept_db []) (scope_id scope) = None.
Proof.
  apply (stale_scope_attribute_error insertion_order ticket_settings ticket_modules (dept_db [])
           (request_of MethodType_GET ticket_user None) ticket_user);
    try reflexivity.
  exact insertion_order_ok.
Defined.

(** X8. With the allow-listed classes importable, for a principal that
    is not a superuser and all of whose roles filter,
    [filter_data_permission] returns a filter exactly when every enabled
    scope of the principal is in the store and every rule of those
    scopes names an allow-listed entity and one of its filterable
    columns; otherwise it raises [AttributeError] or [NotFoundError],
    never anything else. *)
Theorem compile_succeeds_iff
    (set_list : list Z -> list Z) (st : Settings) (md : Modules) (d0 : Database)
    (request : Request) (user : User) :
  Spec.set_list_ok set_list ->
  Spec.models_importable st md = true ->
  auth request = Authenticated user ->
  is_superuser user = false ->
  existsb (fun role => negb (is_filter_scopes role)) (roles user) = false ->
  ((exists p, filter_data_permission set_list st md d0 request = Return p)
   <-> forall role scope,
         In role (roles user) -> In scope (scopes role) ->
         scope_status scope <> StatusType_disable ->
         Crud.select_data_scope d0 (scope_id scope) <> None
         /\ forall r, In r (Crud.scope_rules d0 (scope_id scope)) ->
                      Spec.rule_resolves st md r = true)
  /\ ((exists p, filter_data_permission set_list st md d0 request = Return p)
      \/ filter_data_permission set_list st md d0 request = Raise AttributeError
      \/ filter_data_permission set_list st md d0 request = Raise (NotFoundError msg_model)
      \/ filter_data_permission set_list st md d0 request = Raise (NotFoundError msg_column)).
Proof.
  intros Hset Himp Hauth Hsup Hesc.
  destruct (Hset (data_scope_adds user)) as [_ Hmem].
  destruct (load_rules d0 (set_list (data_scope_adds user)) []) as [e|unique] eqn:Hload.
  { destruct (load_rules_raises d0 _ _ _ Hload) as [-> [i [Hi Hnone]]].
    rewrite (filter_data_permission_raise_load set_list st md d0 request user _
               Hauth Hsup Hesc Hload).
    split; [|tauto]. split; [intros [p H]; discriminate|].
    intros Hall. exfalso. apply Hmem in Hi. apply data_scope_adds_In in Hi.
    destruct Hi as [role [scope [Hr [Hs [Hst <-]]]]].
    destruct (Hall role scope Hr Hs Hst) as [Hsome _]. contradiction. }
  rewrite (filter_data_permission_unfold set_list st md d0 request user unique
             Hauth Hsup Hesc Hload).
  assert (Hexists : forall i, In i (set_list (data_scope_adds user)) ->
                              Crud.select_data_scope d0 i <> None).
  { intros i Hi Hnone.
    rewrite (load_rules_missing d0 _ i Hi Hnone []) in Hload. discriminate. }
  destruct (build_where st md (dict_values unique) [] []) as [e|res] eqn:Hbw; simpl.
  - destruct (build_where_raises st md _ _ _ _ Hbw) as [r [Hr He]].
    destruct (rule_condition_cases st md r Himp) as [[_ [oc Hoc]]|[Hno Hraise]];
      [congruence|].
    split.
    + split; [intros [p H]; discriminate|]. intros Hall. exfalso.
      apply (load_rules_values d0 _ unique Hload) in Hr. destruct Hr as [i [Hi Hin]].
      apply Hmem in Hi. apply data_scope_adds_In in Hi.
      destruct Hi as [role [scope [Hrole [Hs [Hst <-]]]]].
      destruct (Hall role scope Hrole Hs Hst) as [_ Hres].
      rewrite (Hres r Hin) in Hno. discriminate.
    + right. right. rewrite He in Hraise.
      destruct Hraise as [H|H]; inversion H; auto.
  - split; [|left; eauto]. split; [|intros _; eauto].
    intros _ role scope Hrole Hs Hst.
    assert (Hi : In (scope_id scope) (set_list (data_scope_adds user))).
    { apply Hmem. apply data_scope_adds_In. exists role, scope. tauto. }
    split; [now apply Hexists|]. intros r Hr.
    assert (Hv : In r (dict_values unique)).
    { apply (load_rules_values d0 _ unique Hload). now exists (scope_id scope). }
    destruct (rule_condition_cases st md r Himp) as [[Hok _]|[_ Hraise]]; [assumption|].
    exfalso.
    assert (Hraise' : exists e, rule_condition st md r = Raise e)
      by (destruct Hraise; eauto).
    destruct Hraise' as [e He].
    destruct (build_where_fails st md _ r e Hv He [] []) as [e' He']. congruence.
Qed.

Lemma compile_succeeds_iff_witness :
  ((exists p, filter_data_permission insertion_order settings modules
                (dept_db [rule_leader; rule_del_flag])
                (request_of MethodType_GET dept_user None) = Return p)
   <-> forall role scope,
         In role (roles dept_user) -> In scope (scopes role) ->
         scope_status scope <> StatusType_disable ->
         Crud.select_data_scope (dept_db [rule_leader; rule_del_flag]) (scope_id scope) <> None
         /\ forall r, In r (Crud.scope_rules (dept_db [rule_leader; rule_del_flag])
                              (scope_id scope)) ->
                      Spec.rule_resolves settings modules r = true)
  /\ ((exists p, filter_data_permission insertion_order settings modules
                   (dept_db [rule_leader; rule_del_flag])
                   (request_of MethodType_GET dept_user None) = Return p)
      \/ filter_data_permission insertion_order settings modules
           (dept_db [rule_leader; rule_del_flag])
           (request_of MethodType_GET dept_user None) = Raise AttributeError
      \/ filter_data_permission insertion_order settings modules
           (dept_db [rule_leader; rule_del_flag])
           (request_of MethodType_GET dept_user None) = Raise (NotFoundError msg_model)
      \/ filter_data_permission insertion_order settings modules
           (dept_db [rule_leader; rule_del_flag])
           (request_of MethodType_GET dept_user None) = Raise (NotFoundError msg_column)).
Proof.
  apply (compile_succeeds_iff insertion_order settings modules
           (dept_db [rule_leader; rule_del_flag])
           (request_of MethodType_GET dept_user None) dept_user);
    try reflexivity.
  exact insertion_order_ok.
Defined.

End FilterMore.

Section OrderFacts.

Import Permission.

Variable st : Settings.
Variable md : Modules.

Lemma build_where_success_all (rules : list DataRule) (A O : list ColumnElement)
    (res : list ColumnElement * list ColumnElement) :
  build_where st md rules A O = Return res ->
  forall r, In r rules -> exists oc, rule_condition st md r = Return oc.
Proof.
  intros Hbw r Hr. destruct (rule_condition st md r) as [e|oc] eqn:E; [|eauto].
  destruct (build_where_fails st md rules r e Hr E A O) as [e' He']. congruence.
Qed.

(** Two orders of the same rules: the loop succeeds on both or on
    neither, and the combined filters mean the same. *)
Lemma build_where_Permutation (rules rules' : list DataRule)
    (res : list ColumnElement * list ColumnElement) :
  Permutation rules rules' ->
  build_where st md rules [] [] = Return res ->
  exists res',
    build_where st md rules' [] [] = Return res'
    /\ forall holds,
         eval holds (combine (fst res) (snd res)) = eval holds (combine (fst res') (snd res')).
Proof.
  intros Hperm Hbw.
  assert (Hall : forall r, In r rules -> exists oc, rule_condition st md r = Return oc)
    by exact (build_where_success_all rules [] [] res Hbw).
  assert (Hall' : forall r, In r rules' -> exists oc, rule_condition st md r = Return oc).
  { intros r Hr. apply Hall. apply (Permutation_in r (Permutation_sym Hperm) Hr). }
  rewrite (build_where_returns st md rules Hall [] []) in Hbw. inversion Hbw; subst res.
  eexists. split; [apply (build_where_returns st md rules' Hall' [] [])|].
  intros holds. simpl. rewrite !combine_or_of_buckets.
  apply eval_or_of_buckets_Permutation; now apply bucket_Permutation.
Qed.

Lemma build_where_skip_operator (rules1 rules2 : list DataRule) (r : DataRule)
    (oc : option ColumnElement) :
  rule_condition st md r = Return oc ->
  rule_operator r <> RoleDataRuleOperatorType_AND ->
  rule_operator r <> RoleDataRuleOperatorType_OR ->
  forall A O,
    build_where st md (rules1 ++ r :: rules2) A O = build_where st md (rules1 ++ rules2) A O.
Proof.
  intros Hoc Ha Ho. induction rules1 as [|x rules1 IH]; intros A O; simpl.
  - rewrite Hoc. simpl. destruct oc as [c|]; [|reflexivity].
    apply Z.eqb_neq in Ha, Ho. now rewrite Ha, Ho.
  - destruct (rule_condition st md x) as [e|[c|]]; simpl; [reflexivity| |apply IH].
    destruct (rule_operator x =? RoleDataRuleOperatorType_AND); [apply IH|].
    destruct (rule_operator x =? RoleDataRuleOperatorType_OR); apply IH.
Qed.

End OrderFacts.

Lemma load_rules_Permutation (d0 : Database) (ids ids' : list Z) (u u' : dict DataRule) :
  (forall i, In i ids <-> In i ids') ->
  Permission.load_rules d0 ids [] = Return u ->
  Permission.load_rules d0 ids' [] = Return u' ->
  Permutation (dict_values u) (dict_values u').
Proof.
  intros Hsame Hu Hu'. unfold dict_values. apply Permutation_map.
  assert (Hsel0 : Props.selected d0 []) by (intros k v []).
  destruct (load_rules_entries d0 ids [] u Hsel0 Hu) as [_ Hiff].
  destruct (load_rules_entries d0 ids' [] u' Hsel0 Hu') as [_ Hiff'].
  apply NoDup_Permutation.
  - apply (NoDup_map_inv fst). apply (load_rules_keys_nodup d0 ids [] u); [constructor|assumption].
  - apply (NoDup_map_inv fst). apply (load_rules_keys_nodup d0 ids' [] u'); [constructor|assumption].
  - intros [k v]. rewrite Hiff, Hiff'. split; intros [[]|[i [Hi H]]]; right; exists i;
      (split; [now apply Hsame | assumption]).
Qed.

Lemma data_scope_adds_without_disabled (user : User) :
  Permission.data_scope_adds (Props.without_disabled_scopes user)
  = Permission.data_scope_adds user.
Proof.
  unfold Permission.data_scope_adds, Props.without_disabled_scopes. simpl.
  induction (roles user) as [|role rs IH]; simpl; [reflexivity|].
  rewrite IH. f_equal.
  induction (scopes role) as [|s ss IHs]; simpl; [reflexivity|].
  destruct (truthy_int (scope_status s)) eqn:E; simpl.
  - rewrite E. simpl. now rewrite IHs.
  - apply IHs.
Qed.

Lemma escape_without_disabled (user : User) :
  existsb (fun role => negb (is_filter_scopes role)) (roles (Props.without_disabled_scopes user))
  = existsb (fun role => negb (is_filter_scopes role)) (roles user).
Proof.
  unfold Props.without_disabled_scopes. simpl.
  induction (roles user) as [|role rs IH]; simpl; [reflexivity|]. now rewrite IH.
Qed.

Module OrderClaims.

Import Permission Fixtures.

(** X9. The order in which Python lists the set of scope ids does not
    matter to the caller: for two admissible orders
    [filter_data_permission] returns a filter under both or under
    neither, and the two filters hold on the same rows. *)
Theorem set_order_irrelevant
    (set1 set2 : list Z -> list Z) (st : Settings) (md : Modules) (d0 : Database)
    (request : Request) :
  Spec.set_list_ok set1 ->
  Spec.set_list_ok set2 ->
  ((exists p, filter_data_permission set1 st md d0 request = Return p)
   <-> (exists p, filter_data_permission set2 st md d0 request = Return p))
  /\ forall p1 p2,
       filter_data_permission set1 st md d0 request = Return p1 ->
       filter_data_permission set2 st md d0 request = Return p2 ->
       forall holds, eval holds p1 = eval holds p2.
Proof.
  assert (Hone : forall setA setB, Spec.set_list_ok setA -> Spec.set_list_ok setB ->
            forall pA, filter_data_permission setA st md d0 request = Return pA ->
            exists pB, filter_data_permission setB st md d0 request = Return pB
                       /\ forall holds, eval holds pA = eval holds pB).
  { intros setA setB HA HB pA.
    destruct (auth request) as [|user] eqn:Hauth.
    { unfold filter_data_permission, request_user. rewrite Hauth. discriminate. }
    destruct (is_superuser user) eqn:Hsup.
    { unfold filter_data_permission, request_user. rewrite Hauth. simpl. rewrite Hsup.
      intros H. inversion H; subst. eauto. }
    destruct (existsb (fun role => negb (is_filter_scopes role)) (roles user)) eqn:Hesc.
    { unfold filter_data_permission, request_user. rewrite Hauth. simpl. rewrite Hsup, Hesc.
      intros H. inversion H; subst. eauto. }
    destruct (HA (data_scope_adds user)) as [_ HmemA].
    destruct (HB (data_scope_adds user)) as [_ HmemB].
    assert (Hsame : forall i, In i (setA (data_scope_adds user))
                              <-> In i (setB (data_scope_adds user))).
    { intros i. rewrite HmemA, HmemB. tauto. }
    destruct (load_rules d0 (setA (data_scope_adds user)) []) as [e|uA] eqn:HloadA.
    { rewrite (filter_data_permission_raise_load setA st md d0 request user e
                 Hauth Hsup Hesc HloadA). discriminate. }
    destruct (load_rules d0 (setB (data_scope_adds user)) []) as [e|uB] eqn:HloadB.
    { exfalso. destruct (load_rules_raises d0 _ _ _ HloadB) as [_ [i [Hi Hnone]]].
      apply Hsame in Hi. rewrite (load_rules_missing d0 _ i Hi Hnone []) in HloadA.
      discriminate. }
    rewrite (filter_data_permission_unfold setA st md d0 request user uA Hauth Hsup Hesc HloadA).
    rewrite (filter_data_permission_unfold setB st md d0 request user uB Hauth Hsup Hesc HloadB).
    destruct (build_where st md (dict_values uA) [] []) as [e|resA] eqn:HbwA; simpl;
      [discriminate|].
    intros H. inversion H; subst pA.
    destruct (build_where_Permutation st md (dict_values uA) (dict_values uB) resA
                (load_rules_Permutation d0 _ _ uA uB Hsame HloadA HloadB) HbwA)
      as [resB [HbwB Heval]].
    rewrite HbwB. simpl. eauto. }
  intros H1 H2. split.
  - split; intros [p Hp].
    + destruct (Hone set1 set2 H1 H2 p Hp) as [p' [Hp' _]]. eauto.
    + destruct (Hone set2 set1 H2 H1 p Hp) as [p' [Hp' _]]. eauto.
  - intros p1 p2 Hp1 Hp2 holds.
    destruct (Hone set1 set2 H1 H2 p1 Hp1) as [p' [Hp' Heval]].
    rewrite Hp2 in Hp'. inversion Hp'; subst. apply Heval.
Qed.

Lemma nodup_order_ok : Spec.set_list_ok (fun adds => nodup Z.eq_dec adds).
Proof.
  intros adds. split; [apply NoDup_nodup | intros x; apply nodup_In].
Qed.

Lemma set_order_irrelevant_witness :
  ((exists p, filter_data_permission insertion_order ticket_settings ticket_modules ticket_db
                (request_of MethodType_GET ticket_user None) = Return p)
   <-> (exists p, filter_data_permission (fun adds => nodup Z.eq_dec adds)
                    ticket_settings ticket_modules ticket_db
                    (request_of MethodType_GET ticket_user None) = Return p))
  /\ forall p1 p2,
       filter_data_permission insertion_order ticket_settings ticket_modules ticket_db
         (request_of MethodType_GET ticket_user None) = Return p1 ->
       filter_data_permission (fun adds => nodup Z.eq_dec adds)
         ticket_settings ticket_modules ticket_db
         (request_of MethodType_GET ticket_user None) = Return p2 ->
       forall holds, eval holds p1 = eval holds p2.
Proof.
  apply (set_order_irrelevant insertion_order (fun adds => nodup Z.eq_dec adds)
           ticket_settings ticket_modules ticket_db
           (request_of MethodType_GET ticket_user None)).
  - exact insertion_order_ok.
  - exact nodup_order_ok.
Defined.

(** X10. A rule of the resolved rule list that passes the model and
    column checks but whose combining operator is neither AND (0) nor
    OR (1) joins no bucket: [filter_data_permission] returns what it
    returns on the rule list without that rule. *)
Theorem unknown_operator_skipped
    (set_list : list Z -> list Z) (st : Settings) (md : Modules) (d0 : Database)
    (request : Request) (user : User) (unique : dict DataRule)
    (rules1 rules2 : list DataRule) (r : DataRule) :
  auth request = Authenticated user ->
  is_superuser user = false ->
  existsb (fun role => negb (is_filter_scopes role)) (roles user) = false ->
  load_rules d0 (set_list (data_scope_adds user)) [] = Return unique ->
  dict_values unique = (rules1 ++ r :: rules2)%list ->
  (exists oc, rule_condition st md r = Return oc) ->
  rule_operator r <> RoleDataRuleOperatorType_AND ->
  rule_operator r <> RoleDataRuleOperatorType_OR ->
  filter_data_permission set_list st md d0 request
  = (buckets <- build_where st md (rules1 ++ rules2) [] [] ;;
     Return (combine (fst buckets) (snd buckets))).
Proof.
  intros Hauth Hsup Hesc Hload Hsplit [oc Hoc] Ha Ho.
  rewrite (filter_data_permission_unfold set_list st md d0 request user unique
             Hauth Hsup Hesc Hload).
  rewrite Hsplit.
  now rewrite (build_where_skip_operator st md rules1 rules2 r oc Hoc Ha Ho).
Qed.

Lemma unknown_operator_skipped_witness :
  let odd := mkDataRule 9 "department" "status" 2 RoleDataRuleExpressionType_eq "1" in
  filter_data_permission insertion_order settings modules
    (dept_db [odd; rule_leader]) (request_of MethodType_GET dept_user None)
  = (buckets <- build_where settings modules ([] ++ [rule_leader]) [] [] ;;
     Return (combine (fst buckets) (snd buckets))).
Proof.
  cbv zeta.
  apply (unknown_operator_skipped insertion_order settings modules
           (dept_db [mkDataRule 9 "department" "status" 2 RoleDataRuleExpressionType_eq "1";
                     rule_leader])
           (request_of MethodType_GET dept_user None) dept_user
           [(9, mkDataRule 9 "department" "status" 2 RoleDataRuleExpressionType_eq "1");
            (4, rule_leader)]
           [] [rule_leader]
           (mkDataRule 9 "department" "status" 2 RoleDataRuleExpressionType_eq "1"));
    try reflexivity; try discriminate.
  eexists. reflexivity.
Defined.

(** X11. Disabled scopes are invisible to the compiler: taking them off
    the principal's roles changes nothing in what
    [filter_data_permission] returns or raises. *)
Theorem disabled_scopes_invisible
    (set_list : list Z -> list Z) (st : Settings) (md : Modules) (d0 : Database)
    (request : Request) (user : User) :
  auth request = Authenticated user ->
  filter_data_permission set_list st md d0
    (Props.with_user request (Props.without_disabled_scopes user))
  = filter_data_permission set_list st md d0 request.
Proof.
  intros Hauth. unfold filter_data_permission, request_user. rewrite Hauth.
  cbn [Props.with_user auth bind].
  rewrite escape_without_disabled, data_scope_adds_without_disabled.
  reflexivity.
Qed.

Lemma disabled_scopes_invisible_witness :
  let user := staff_of [mkRole 1 StatusType_enable true []
                          [mkDataScope 1 StatusType_enable; mkDataScope 2 StatusType_disable]] in
  filter_data_permission insertion_order ticket_settings ticket_modules ticket_db
    (Props.with_user (request_of MethodType_GET user None) (Props.without_disabled_scopes user))
  = filter_data_permission insertion_order ticket_settings ticket_modules ticket_db
      (request_of MethodType_GET user None).
Proof.
  cbv zeta.
  apply (disabled_scopes_invisible insertion_order ticket_settings ticket_modules ticket_db
           (request_of MethodType_GET
              (staff_of [mkRole 1 StatusType_enable true []
                           [mkDataScope 1 StatusType_enable; mkDataScope 2 StatusType_disable]])
              None)).
  reflexivity.
Defined.

End OrderClaims.

(* ================================================================== *)
(** ** Rule and scope administration: what the services do to the
       store and to the cache *)

Section CacheFacts.

Import Service Admin.

Lemma append_inj_l (s a b : string) : (s ++ a = s ++ b)%string -> a = b.
Proof.
  induction s as [|c s IH]; simpl; intros H; [assumption|].
  inversion H. now apply IH.
Qed.

Lemma str_of_int_inj (a b : Z) : str_of_int a = str_of_int b -> a = b.
Proof.
  unfold str_of_int. intros H.
  assert (Hnn : forall z, Z.to_int z <> Decimal.Pos Decimal.Nil
                          /\ Z.to_int z <> Decimal.Neg Decimal.Nil).
  { intros [|p|p]; simpl; split; try discriminate;
      intros E; inversion E as [E']; now apply DecimalPos.Unsigned.to_uint_nonnil in E'. }
  apply DecimalZ.to_int_inj.
  assert (Hs : Some (Z.to_int a) = Some (Z.to_int b)).
  { rewrite <- (NilZero.isi (Z.to_int a)), <- (NilZero.isi (Z.to_int b));
      try apply Hnn. now rewrite H. }
  now inversion Hs.
Qed.

(** Distinct users have distinct cache keys. *)
Lemma user_cache_key_inj (st : Settings) (a b : Z) :
  user_cache_key st a = user_cache_key st b -> a = b.
Proof.
  unfold user_cache_key. intros H.
  apply append_inj_l in H. apply append_inj_l in H. now apply str_of_int_inj.
Qed.

Lemma cache_get_redis_delete (c : Cache) (k k' : string) :
  cache_get (redis_delete c k) k' = if String.eqb k k' then None else cache_get c k'.
Proof.
  unfold redis_delete. induction c as [|[k0 v0] c IH]; simpl.
  - now destruct (String.eqb k k').
  - destruct (String.eqb_spec k0 k) as [->|Hne]; simpl.
    + rewrite IH. destruct (String.eqb_spec k k'); reflexivity.
    + rewrite IH. destruct (String.eqb_spec k0 k') as [->|Hne'].
      * destruct (String.eqb_spec k k'); [congruence | reflexivity].
      * reflexivity.
Qed.

Lemma cache_get_purge (st : Settings) (users : list Z) (c : Cache) (k : string) :
  cache_get (fold_left (fun c' uid => redis_delete c' (user_cache_key st uid)) users c) k
  = if str_in k (map (user_cache_key st) users) then None else cache_get c k.
Proof.
  revert c. induction users as [|u users IH]; intros c; simpl; [reflexivity|].
  rewrite IH, cache_get_redis_delete. unfold str_in. simpl.
  rewrite (String.eqb_sym k). destruct (String.eqb (user_cache_key st u) k); simpl.
  - now destruct (existsb _ _).
  - reflexivity.
Qed.

End CacheFacts.

Section StoreFacts.

Lemma find_rule_unique (l : list DataRule) (r : DataRule) :
  NoDup (map rule_id l) -> In r l ->
  find (fun x => rule_id x =? rule_id r) l = Some r.
Proof.
  induction l as [|x l IH]; simpl; intros Hnd Hin; [destruct Hin|].
  inversion Hnd as [|? ? Hnotin Hnd']; subst.
  destruct Hin as [->|Hin].
  - now rewrite Z.eqb_refl.
  - destruct (Z.eqb_spec (rule_id x) (rule_id r)) as [E|E]; [|now apply IH].
    exfalso. apply Hnotin. rewrite E. now apply in_map.
Qed.




Lemma scope_rules_other_links (d : Database) (links : list (Z * Z)) (i : Z) :
  (forall link, In link links -> fst link <> i) ->
  flat_map
    (fun link =>
       if fst link =? i
       then match Crud.select_data_rule d (snd link) with Some r => [r] | None => [] end
       else [])
    links = [].
Proof.
  induction links as [|link links IH]; simpl; intros H; [reflexivity|].
  destruct (Z.eqb_spec (fst link) i) as [E|E]; [now elim (H link (or_introl eq_refl))|].
  apply IH. intros l Hl. apply H. now right.
Qed.

Lemma scope_rules_filter_links (d : Database) (links : list (Z * Z)) (pk i : Z) :
  i <> pk ->
  flat_map
    (fun link =>
       if fst link =? i
       then match Crud.select_data_rule d (snd link) with Some r => [r] | None => [] end
       else [])
    (filter (fun link => negb (fst link =? pk)) links)
  = flat_map
      (fun link =>
         if fst link =? i
         then match Crud.select_data_rule d (snd link) with Some r => [r] | None => [] end
         else [])
      links.
Proof.
  intros Hne. induction links as [|link links IH]; simpl; [reflexivity|].
  destruct (Z.eqb_spec (fst link) pk) as [E|E]; simpl.
  - destruct (Z.eqb_spec (fst link) i) as [E'|E']; [congruence | apply IH].
  - now rewrite IH.
Qed.

Lemma scope_rules_new_links (d : Database) (rules : list DataRule) (pk : Z) :
  (forall r, In r rules -> Crud.select_data_rule d (rule_id r) = Some r) ->
  flat_map
    (fun link =>
       if fst link =? pk
       then match Crud.select_data_rule d (snd link) with Some r => [r] | None => [] end
       else [])
    (map (fun r => (pk, rule_id r)) rules)
  = rules.
Proof.
  induction rules as [|r rules IH]; simpl; intros H; [reflexivity|].
  rewrite Z.eqb_refl, (H r (or_introl eq_refl)). simpl. f_equal.
  apply IH. intros r' Hr'. apply H. now right.
Qed.

End StoreFacts.

Section AdminFacts.

Import Admin.

Lemma column_details_keys (comments : string -> string -> option string) (path : string)
    (keys : list string) (details : list GetDataRuleColumnDetail) :
  column_details comments path keys = Succeeded details -> map key details = keys.
Proof.
  revert details. induction keys as [|k keys IH]; intros details; simpl.
  - intros H. inversion H. reflexivity.
  - destruct (comments path k) as [c|]; [|discriminate].
    destruct (column_details comments path keys) as [f|ds]; [discriminate|].
    intros H. inversion H. simpl. f_equal. now apply IH.
Qed.

Lemma scope_get_updated (rows : list DataScopeRow) (pk : Z) (name : string) (status : Z)
    (row : DataScopeRow) :
  find (fun r => ds_id r =? pk) rows = Some row ->
  find (fun r => ds_id r =? pk)
       (map (fun r => if ds_id r =? pk then mkDataScopeRow pk name status else r) rows)
  = Some (mkDataScopeRow pk name status).
Proof.
  induction rows as [|x rows IH]; simpl; [discriminate|].
  destruct (Z.eqb_spec (ds_id x) pk) as [E|E]; simpl.
  - now rewrite Z.eqb_refl.
  - apply Z.eqb_neq in E. rewrite E. apply IH.
Qed.

Lemma scope_get_other (rows : list DataScopeRow) (pk i : Z) (name : string) (status : Z) :
  i <> pk ->
  find (fun r => ds_id r =? i)
       (map (fun r => if ds_id r =? pk then mkDataScopeRow pk name status else r) rows)
  = find (fun r => ds_id r =? i) rows.
Proof.
  intros Hne. induction rows as [|x rows IH]; simpl; [reflexivity|].
  destruct (Z.eqb_spec (ds_id x) pk) as [E|E]; simpl.
  - rewrite E. apply Z.eqb_neq in Hne. rewrite Z.eqb_sym in Hne. rewrite Hne. apply IH.
  - destruct (ds_id x =? i); [reflexivity | apply IH].
Qed.

Lemma scope_get_deleted (rows : list DataScopeRow) (pks : list Z) (pk : Z) :
  int_in pk pks = true ->
  find (fun r => ds_id r =? pk) (filter (fun r => negb (int_in (ds_id r) pks)) rows) = None.
Proof.
  intros Hk. induction rows as [|x rows IH]; simpl; [reflexivity|].
  destruct (int_in (ds_id x) pks) eqn:E; simpl; [apply IH|].
  destruct (Z.eqb_spec (ds_id x) pk) as [Ek|Ek]; [congruence | apply IH].
Qed.

Lemma scope_get_kept (rows : list DataScopeRow) (pks : list Z) (pk : Z) :
  int_in pk pks = false ->
  find (fun r => ds_id r =? pk) (filter (fun r => negb (int_in (ds_id r) pks)) rows)
  = find (fun r => ds_id r =? pk) rows.
Proof.
  intros Hk. induction rows as [|x rows IH]; simpl; [reflexivity|].
  destruct (int_in (ds_id x) pks) eqn:E; simpl.
  - destruct (Z.eqb_spec (ds_id x) pk) as [Ek|Ek]; [congruence | apply IH].
  - destruct (ds_id x =? pk); [reflexivity | apply IH].
Qed.

(** The purge loop of [DataScopeService.delete] finds nothing to purge
    for. *)
Lemma delete_loop_idle (st : Settings) (s' : Store) (pks : list Z) (c : Service.Cache) :
  (forall pk, In pk pks -> scope_get s' pk = None) ->
  fold_left
    (fun c pk =>
       match scope_get s' pk with
       | None => c
       | Some data_rule => purge_scope_users st s' (ds_id data_rule) c
       end)
    pks c = c.
Proof.
  revert c. induction pks as [|pk pks IH]; intros c H; simpl; [reflexivity|].
  rewrite (H pk (or_introl eq_refl)). apply IH. intros k Hk. apply H. now right.
Qed.

Lemma select_data_scope_database_of (s : Store) (pk : Z) :
  Crud.select_data_scope (database_of s) pk
  = match scope_get s pk with
    | None => None
    | Some row => Some (mkDataScope (ds_id row) (ds_status row))
    end.
Proof.
  unfold Crud.select_data_scope, scope_get, database_of. simpl.
  induction (data_scope_rows s) as [|x rows IH]; simpl; [reflexivity|].
  destruct (ds_id x =? pk); [reflexivity | apply IH].
Qed.

End AdminFacts.

Module AdminClaims.

Import Permission Service Admin Fixtures AdminFixtures.

(** X12. What [get_columns] offers and what the compiler accepts agree:
    when [get_columns] returns for a model, the model is one that
    [get_models] lists, none of the keys it returns is an excluded
    column, and a rule on that model passes the model and column checks
    of [filter_data_permission] exactly when its column is one of the
    returned keys. *)
Theorem offered_columns_are_the_filterable_ones
    (st : Settings) (md : Modules) (comments : string -> string -> option string)
    (model : string) (details : list GetDataRuleColumnDetail) :
  get_columns st md comments model = Succeeded details ->
  In model (get_models st)
  /\ (forall d, In d details -> ~ In (key d) (DATA_PERMISSION_COLUMN_EXCLUDE st))
  /\ forall r, rule_model r = model ->
       (In (rule_column r) (map key details)
        <-> exists oc, rule_condition st md r = Return oc).
Proof.
  unfold get_columns, get_models.
  destruct (models_get (DATA_PERMISSION_MODELS st) model) as [path|] eqn:Hget; [|discriminate].
  destruct (dynamic_import_data_model md path) as [e|model_ins] eqn:Himp; [discriminate|].
  intros Hdet. apply column_details_keys in Hdet.
  split; [|split].
  - apply models_get_In in Hget. apply in_map_iff. now exists (model, path).
  - intros d Hd Hex. assert (Hk : In (key d) (map key details)) by now apply in_map.
    rewrite Hdet in Hk. apply filter_In in Hk. destruct Hk as [_ Hk].
    apply str_in_In in Hex. rewrite Hex in Hk. discriminate.
  - intros r Hr. unfold rule_condition. rewrite Hr, Hget, Himp. simpl.
    rewrite Hdet, <- str_in_In.
    destruct (str_in (rule_column r) _); simpl.
    + split; [eauto | reflexivity].
    + split; [discriminate | intros [oc H]; discriminate].
Qed.

Lemma offered_columns_are_the_filterable_ones_witness :
  let details :=
    [mkColumnDetail "name" "Department Name"; mkColumnDetail "leader" "Person in charge";
     mkColumnDetail "phone" "Mobile"; mkColumnDetail "email" "email";
     mkColumnDetail "status" "District status (0 is deactivated 1 is normal)";
     mkColumnDetail "parent_id" "Parent Department ID"] in
  In "department" (get_models settings)
  /\ (forall d, In d details -> ~ In (key d) (DATA_PERMISSION_COLUMN_EXCLUDE settings))
  /\ forall r, rule_model r = "department" ->
       (In (rule_column r) (map key details)
        <-> exists oc, rule_condition settings modules r = Return oc).
Proof.
  cbv zeta.
  apply (offered_columns_are_the_filterable_ones settings modules dept_comments "department").
  reflexivity.
Defined.


(** X14. After [update_data_scope_rule] on a scope that exists, in a
    store whose rule ids are distinct, the scope shows exactly the
    stored rules whose id was listed (in table order), every other scope
    shows what it showed before, and the count returned is the number of
    those rules; on a scope that does not exist the call raises
    [AttributeError] and changes nothing. *)
Theorem scope_rule_set_round_trip (pk : Z) (rule_ids : list Z) (w : World) :
  Props.rule_ids_unique (db w) ->
  (Crud.select_data_scope (db w) pk <> None ->
   let chosen := filter (fun r => int_in (rule_id r) rule_ids) (sys_data_rule (db w)) in
   fst (update_data_scope_rule pk rule_ids w) = Return (len chosen)
   /\ Crud.scope_rules (db (snd (update_data_scope_rule pk rule_ids w))) pk = chosen
   /\ forall i, i <> pk ->
        Crud.scope_rules (db (snd (update_data_scope_rule pk rule_ids w))) i
        = Crud.scope_rules (db w) i)
  /\ (Crud.select_data_scope (db w) pk = None ->
      update_data_scope_rule pk rule_ids w = (Raise AttributeError, w)).
Proof.
  intros Huniq. split.
  - intros Hsome chosen.
    unfold update_data_scope_rule, Crud.update_rules, Crud.get_with_relation.
    destruct (Crud.select_data_scope (db w) pk) as [s|]; [|congruence].
    cbn [fst snd db]. split; [reflexivity|].
    pose (rules_of := fun (i : Z) (link : Z * Z) =>
            if fst link =? i
            then match Crud.select_data_rule (db w) (snd link) with
                 | Some r => [r]
                 | None => []
                 end
            else []).
    split.
    + change (flat_map (rules_of pk)
                (filter (fun link => negb (fst link =? pk)) (sys_data_scope_rule (db w))
                 ++ map (fun r => (pk, rule_id r)) chosen) = chosen).
      rewrite flat_map_app. unfold rules_of.
      rewrite (scope_rules_other_links (db w)
                 (filter (fun link => negb (fst link =? pk)) (sys_data_scope_rule (db w))) pk).
      * simpl. apply (scope_rules_new_links (db w)).
        intros r Hr. apply filter_In in Hr. destruct Hr as [Hr _].
        unfold Crud.select_data_rule. now apply find_rule_unique.
      * intros link Hl. apply filter_In in Hl. destruct Hl as [_ Hl].
        destruct (Z.eqb_spec (fst link) pk); [discriminate | assumption].
    + intros i Hne.
      change (flat_map (rules_of i)
                (filter (fun link => negb (fst link =? pk)) (sys_data_scope_rule (db w))
                 ++ map (fun r => (pk, rule_id r)) chosen)
              = flat_map (rules_of i) (sys_data_scope_rule (db w))).
      rewrite flat_map_app. unfold rules_of.
      rewrite (scope_rules_filter_links (db w) _ pk i Hne).
      rewrite (scope_rules_other_links (db w) (map (fun r => (pk, rule_id r)) chosen) i).
      * apply app_nil_r.
      * intros link Hl. apply in_map_iff in Hl. destruct Hl as [r [<- _]]. simpl. congruence.
  - intros Hnone.
    unfold update_data_scope_rule, Crud.update_rules, Crud.get_with_relation.
    now rewrite Hnone.
Qed.

Lemma scope_rule_set_round_trip_witness :
  let w := mkWorld ticket_db warm_cache in
  (Crud.select_data_scope (db w) 1 <> None ->
   let chosen := filter (fun r => int_in (rule_id r) [2]) (sys_data_rule (db w)) in
   fst (update_data_scope_rule 1 [2] w) = Return (len chosen)
   /\ Crud.scope_rules (db (snd (update_data_scope_rule 1 [2] w))) 1 = chosen
   /\ forall i, i <> 1 ->
        Crud.scope_rules (db (snd (update_data_scope_rule 1 [2] w))) i
        = Crud.scope_rules (db w) i)
  /\ (Crud.select_data_scope (db w) 1 = None ->
      update_data_scope_rule 1 [2] w = (Raise AttributeError, w)).
Proof.
  cbv zeta.
  apply (scope_rule_set_round_trip 1 [2] (mkWorld ticket_db warm_cache)).
  unfold Props.rule_ids_unique. simpl.
  repeat constructor; simpl; intuition discriminate.
Defined.

End AdminClaims.

Module ScopeClaims.

Import Permission Service Admin Fixtures AdminFixtures.

(** X15. A successful [DataScopeService.update] (the scope exists, and
    the new name is its own or is free) rewrites the row and purges: the
    cached snapshot of every user that holds a role holding the scope is
    gone afterwards, and the snapshot of every other user, like every
    other key, is what it was. *)
Theorem scope_update_purges
    (st : Settings) (pk : Z) (name : string) (status : Z) (w : Realm) (row : DataScopeRow) :
  scope_get (store w) pk = Some row ->
  (ds_name row = name \/ scope_get_by_name (store w) name = None) ->
  let result := data_scope_service_update st pk name status w in
  let users := users_of_scope (database_of (store w)) pk in
  fst result
  = Succeeded (len (filter (fun r => ds_id r =? pk) (data_scope_rows (store w))))
  /\ scope_get (store (snd result)) pk = Some (mkDataScopeRow pk name status)
  /\ (forall i, i <> pk -> scope_get (store (snd result)) i = scope_get (store w) i)
  /\ (forall uid, In uid users ->
        cache_get (cache (snd result)) (user_cache_key st uid) = None)
  /\ (forall uid, ~ In uid users ->
        cache_get (cache (snd result)) (user_cache_key st uid)
        = cache_get (cache w) (user_cache_key st uid))
  /\ (forall k, (forall uid, k <> user_cache_key st uid) ->
        cache_get (cache (snd result)) k = cache_get (cache w) k).
Proof.
  intros Hget Hname result users. unfold result, data_scope_service_update.
  rewrite Hget.
  assert (Hfree : negb (String.eqb (ds_name row) name)
                  && match scope_get_by_name (store w) name with
                     | Some _ => true
                     | None => false
                     end = false).
  { destruct Hname as [->| ->]; [now rewrite String.eqb_refl | apply andb_false_r]. }
  rewrite Hfree. cbn [scope_update fst snd store cache].
  split; [reflexivity|]. split.
  { unfold scope_get. cbn [data_scope_rows]. now apply (scope_get_updated _ pk name status row). }
  split.
  { intros i Hne. unfold scope_get. cbn [data_scope_rows]. now apply scope_get_other. }
  unfold purge_scope_users.
  change (users_of_scope (database_of _) pk) with users.
  split; [|split].
  - intros uid Hin. rewrite cache_get_purge.
    assert (Hk : str_in (user_cache_key st uid) (map (user_cache_key st) users) = true).
    { apply str_in_In. now apply in_map. }
    now rewrite Hk.
  - intros uid Hnot. rewrite cache_get_purge.
    assert (Hk : str_in (user_cache_key st uid) (map (user_cache_key st) users) = false).
    { apply str_in_false. intros Hin. apply in_map_iff in Hin.
      destruct Hin as [u [Hu Hin]]. apply user_cache_key_inj in Hu. now subst. }
    now rewrite Hk.
  - intros k Hk. rewrite cache_get_purge.
    assert (Hf : str_in k (map (user_cache_key st) users) = false).
    { apply str_in_false. intros Hin. apply in_map_iff in Hin.
      destruct Hin as [u [Hu _]]. now apply (Hk u). }
    now rewrite Hf.
Qed.

Lemma scope_update_purges_witness :
  let result := data_scope_service_update settings 2 "south-east" StatusType_disable office in
  let users := users_of_scope (database_of (store office)) 2 in
  fst result
  = Succeeded (len (filter (fun r => ds_id r =? 2) (data_scope_rows (store office))))
  /\ scope_get (store (snd result)) 2 = Some (mkDataScopeRow 2 "south-east" StatusType_disable)
  /\ (forall i, i <> 2 -> scope_get (store (snd result)) i = scope_get (store office) i)
  /\ (forall uid, In uid users ->
        cache_get (cache (snd result)) (user_cache_key settings uid) = None)
  /\ (forall uid, ~ In uid users ->
        cache_get (cache (snd result)) (user_cache_key settings uid)
        = cache_get (cache office) (user_cache_key settings uid))
  /\ (forall k, (forall uid, k <> user_cache_key settings uid) ->
        cache_get (cache (snd result)) k = cache_get (cache office) k).
Proof.
  apply (scope_update_purges settings 2 "south-east" StatusType_disable office
           (mkDataScopeRow 2 "south" StatusType_enable)).
  - reflexivity.
  - right. reflexivity.
Defined.


(** X17. [DataScopeService.delete] deletes the rows and their link
    rows, and never purges: it looks each id up again after the rows are
    gone, finds none, and leaves the cache exactly as it was, also for
    the users that held the deleted scopes. *)
Theorem scope_delete_never_purges (st : Settings) (pks : list Z) (w : Realm) :
  cache (snd (data_scope_service_delete st pks w)) = cache w
  /\ fst (data_scope_service_delete st pks w)
     = Succeeded (len (filter (fun row => int_in (ds_id row) pks) (data_scope_rows (store w))))
  /\ (forall pk, In pk pks ->
        data_scope_service_get (store (snd (data_scope_service_delete st pks w))) pk
        = Raise (NotFoundError msg_scope_missing))
  /\ (forall pk, ~ In pk pks ->
        scope_get (store (snd (data_scope_service_delete st pks w))) pk
        = scope_get (store w) pk)
  /\ (forall link,
        In link (role_scope_links (store (snd (data_scope_service_delete st pks w)))) ->
        ~ In (snd link) pks)
  /\ (forall link,
        In link (scope_rule_links (store (snd (data_scope_service_delete st pks w)))) ->
        ~ In (fst link) pks).
Proof.
  unfold data_scope_service_delete. cbn [scope_delete fst snd store cache].
  assert (Hgone : forall pk, In pk pks ->
            scope_get
              {| data_scope_rows :=
                   filter (fun row => negb (int_in (ds_id row) pks)) (data_scope_rows (store w));
                 data_rule_rows := data_rule_rows (store w);
                 scope_rule_links :=
                   filter (fun link => negb (int_in (fst link) pks)) (scope_rule_links (store w));
                 role_scope_links :=
                   filter (fun link => negb (int_in (snd link) pks)) (role_scope_links (store w));
                 user_role_links := user_role_links (store w) |} pk = None).
  { intros pk Hpk. apply int_in_In in Hpk. unfold scope_get. cbn [data_scope_rows].
    now apply scope_get_deleted. }
  split; [now apply delete_loop_idle|]. split; [reflexivity|]. split; [|split; [|split]].
  - intros pk Hpk. unfold data_scope_service_get. now rewrite (Hgone pk Hpk).
  - intros pk Hpk. unfold scope_get. cbn [data_scope_rows]. apply scope_get_kept.
    destruct (int_in pk pks) eqn:E; [|reflexivity]. apply int_in_In in E. contradiction.
  - cbn [role_scope_links]. intros link Hl Hin. apply filter_In in Hl. destruct Hl as [_ Hl].
    apply int_in_In in Hin. rewrite Hin in Hl. discriminate.
  - cbn [scope_rule_links]. intros link Hl Hin. apply filter_In in Hl. destruct Hl as [_ Hl].
    apply int_in_In in Hin. rewrite Hin in Hl. discriminate.
Qed.

(** X18. After [DataScopeService.delete], a principal snapshot that
    still lists a deleted scope as enabled (none was purged) cannot be
    filtered for any more: for such a principal that is not a superuser
    and all of whose roles filter, [filter_data_permission] on the store
    after the deletion raises [AttributeError]. *)
Theorem deleted_scope_breaks_stale_principal
    (set_list : list Z -> list Z) (st : Settings) (md : Modules)
    (pks : list Z) (w : Realm) (request : Request) (user : User)
    (role : Role) (scope : DataScope) :
  Spec.set_list_ok set_list ->
  auth request = Authenticated user ->
  is_superuser user = false ->
  existsb (fun r => negb (is_filter_scopes r)) (roles user) = false ->
  In role (roles user) -> In scope (scopes role) ->
  scope_status scope <> StatusType_disable ->
  In (scope_id scope) pks ->
  filter_data_permission set_list st md
    (database_of (store (snd (data_scope_service_delete st pks w)))) request
  = Raise AttributeError.
Proof.
  intros Hset Hauth Hsup Hesc Hrole Hscope Hst Hpk.
  apply (filter_data_permission_raise_load set_list st md _ request user _ Hauth Hsup Hesc).
  apply (load_rules_missing _ _ (scope_id scope)).
  - destruct (Hset (data_scope_adds user)) as [_ Hmem]. apply Hmem.
    apply data_scope_adds_In. exists role, scope. tauto.
  - rewrite select_data_scope_database_of.
    unfold data_scope_service_delete. cbn [scope_delete fst snd store].
    unfold scope_get. cbn [data_scope_rows].
    apply int_in_In in Hpk. now rewrite (scope_get_deleted _ pks _ Hpk).
Qed.

Lemma deleted_scope_breaks_stale_principal_witness :
  filter_data_permission insertion_order ticket_settings ticket_modules
    (database_of (store (snd (data_scope_service_delete ticket_settings [2] office))))
    (request_of MethodType_GET ticket_user None)
  = Raise AttributeError.
Proof.
  apply (deleted_scope_breaks_stale_principal insertion_order ticket_settings ticket_modules
           [2] office (request_of MethodType_GET ticket_user None) ticket_user
           role_scope_b (mkDataScope 2 StatusType_enable));
    try reflexivity; try discriminate.
  - exact insertion_order_ok.
  - simpl. right. now left.
  - simpl. now left.
  - simpl. now left.
Defined.

End ScopeClaims.
